(** * HTTP transport of the string service (ch6-discovery/string-service/transport/http.go)

    A shallow embedding of the transport package: the two request decoders,
    the success and error encoders, the go-kit server pipeline that chains
    them around an endpoint, and the route table built by [MakeHttpHandler].

    The standard library and third-party collaborators the package calls
    (net/http's ResponseWriter, encoding/json's Encoder, gorilla/mux's
    route variables and go-kit's Server) are modelled in their own modules
    below, each limited to the behaviour the package relies on. *)

From Stdlib Require Import ZArith String Ascii List.
From stdpp Require Import base option gmap strings list.

Set Warnings "-register-all".

Local Open Scope string_scope.
Local Open Scope Z_scope.

(** ** Go values shared by the whole package *)

Module Go.

(** A Go [error] value as built by [errors.New]: the address of the
    allocated [*errorString] gives the value its identity (two calls of
    [errors.New] with the same text are different errors) and [Error]
    is the method returning its text. *)
Record error := mkError { err_addr : N; Error : string }.

Definition errors_New (addr : N) (text : string) : error :=
  {| err_addr := addr; Error := text |}.

(** [context.Context]: the background context and the contexts derived
    from a parent. It is threaded through every function of the package
    and never inspected. *)
Inductive Context :=
| Background
| WithValue (parent : Context) (key val : string)
| WithCancel (parent : Context).

End Go.

Export Go.

(** ** net/http requests and gorilla/mux route variables *)

Module Http.

(** The parts of [*http.Request] a handler can look at. [ReqContext] is
    what [r.Context()] returns, apart from the route variables:
    [routeVars] is the value gorilla/mux stores in the request context
    when a route matched ([None] when the request never went through the
    router). *)
Record Request := mkRequest {
  ReqContext : Context;
  Method : string;
  URLPath : string;
  RawQuery : string;
  ReqHeader : gmap string (list string);
  Body : string;
  routeVars : option (gmap string string)
}.

Definition StatusOK : Z := 200.
Definition StatusInternalServerError : Z := 500.

End Http.

Export Http.

Module Mux.

(** [mux.Vars(r)]: the route variables of the request, or the nil map
    (which behaves as the empty map under lookup) when there are none. *)
Definition Vars (r : Request) : gmap string string :=
  default ∅ (routeVars r).

End Mux.

(** ** net/http's ResponseWriter *)

Module Writer.

(** The three methods of [http.ResponseWriter], as a call trace. *)
Inductive Call :=
| CallHeaderSet (key value : string)
| CallWriteHeader (code : Z)
| CallWrite (data : string).

(** An in-memory response writer that behaves like net/http's: [header]
    is the live map returned by [Header()]; the first [WriteHeader]
    (explicit, or implied by the first [Write]) commits the status code
    and the headers as they are at that moment, later ones are ignored;
    [Write] appends to the body, which holds the bytes the handler has
    handed over, in order. [calls] records every method call in order.
    [outcomes] is the connection behind the writer: the errors its coming
    [Write] calls will return, one entry per call ([None] for a write that
    goes through); past the end of the list writes go through. *)
Record ResponseWriter := mkWriter {
  header : gmap string (list string);
  wroteHeader : bool;
  status : Z;
  sentHeader : gmap string (list string);
  body : string;
  calls : list Call;
  outcomes : list (option error)
}.

(** The writer the HTTP server hands to a handler, on a connection that
    takes every write. *)
Definition fresh : ResponseWriter :=
  {| header := ∅; wroteHeader := false; status := 0;
     sentHeader := ∅; body := ""; calls := []; outcomes := [] |}.


Definition log (c : Call) (w : ResponseWriter) : ResponseWriter :=
  {| header := header w; wroteHeader := wroteHeader w; status := status w;
     sentHeader := sentHeader w; body := body w;
     calls := calls w ++ [c]; outcomes := outcomes w |}.

Definition commit (code : Z) (w : ResponseWriter) : ResponseWriter :=
  if wroteHeader w then w
  else {| header := header w; wroteHeader := true; status := code;
          sentHeader := header w; body := body w; calls := calls w;
          outcomes := outcomes w |}.

(** [w.Header().Set(key, value)]; the keys this package uses are already
    in canonical MIME form, so canonicalisation leaves them as they are. *)
Definition HeaderSet (key value : string) (w : ResponseWriter)
  : ResponseWriter :=
  let w := log (CallHeaderSet key value) w in
  {| header := <[key := [value]]> (header w);
     wroteHeader := wroteHeader w; status := status w;
     sentHeader := sentHeader w; body := body w; calls := calls w;
     outcomes := outcomes w |}.

(** [w.WriteHeader(code)] *)
Definition WriteHeader (code : Z) (w : ResponseWriter) : ResponseWriter :=
  commit code (log (CallWriteHeader code) w).

(** [w.Write(data)], the writer it leaves: an implicit
    [WriteHeader(StatusOK)] when no status was committed yet, then the
    data; one outcome of the connection is used up. *)
Definition Write (data : string) (w : ResponseWriter) : ResponseWriter :=
  let w := commit StatusOK (log (CallWrite data) w) in
  {| header := header w; wroteHeader := wroteHeader w; status := status w;
     sentHeader := sentHeader w; body := body w ++ data;
     calls := calls w; outcomes := tail (outcomes w) |}.

(** [w.Write(data)], the error it returns: the connection's outcome for
    this write. *)
Definition WriteError (w : ResponseWriter) : option error :=
  match outcomes w with
  | [] => None
  | outcome :: _ => outcome
  end.

(** The explicit status codes a handler asked for. *)
Definition explicitStatus (w : ResponseWriter) : list Z :=
  omap (λ c, match c with CallWriteHeader n => Some n | _ => None end)
       (calls w).

(** The chunks a handler wrote. *)
Definition writes (w : ResponseWriter) : list string :=
  omap (λ c, match c with CallWrite d => Some d | _ => None end)
       (calls w).

End Writer.

Export Writer.

(** ** encoding/json *)

Module Json.

Definition dquote : ascii := "034"%char.
Definition backslash : ascii := "092"%char.
Definition newline : ascii := "010"%char.
Definition str (c : ascii) : string := String c "".

Definition hex (n : N) : ascii :=
  nth (N.to_nat n) (list_ascii_of_string "0123456789abcdef") "0"%char.

(** utf8.RuneError *)
Definition RuneError : N := 65533.

(** The lead-byte table of unicode/utf8: for a lead byte, the length of
    the sequence and the range accepted for its second byte. *)
Definition first (b : N) : option (nat * (N * N)) :=
  if (b <? 194)%N then None
  else if (b <? 224)%N then Some (2%nat, (128, 191)%N)
  else if (b =? 224)%N then Some (3%nat, (160, 191)%N)
  else if (b <? 237)%N then Some (3%nat, (128, 191)%N)
  else if (b =? 237)%N then Some (3%nat, (128, 159)%N)
  else if (b <? 240)%N then Some (3%nat, (128, 191)%N)
  else if (b =? 240)%N then Some (4%nat, (144, 191)%N)
  else if (b <? 244)%N then Some (4%nat, (128, 191)%N)
  else if (b =? 244)%N then Some (4%nat, (128, 143)%N)
  else None.

Definition cont (b : N) : bool := (128 <=? b)%N && (b <=? 191)%N.
Definition low6 (b : N) : N := N.land b 63.

(** [utf8.DecodeRuneInString] on a string whose first byte is not ASCII:
    the rune and the number of bytes it takes, [(RuneError, 1)] for an
    invalid or truncated sequence. *)
Definition DecodeRuneInString (s : string) : N * nat :=
  match s with
  | EmptyString => (RuneError, 0%nat)
  | String c0 t0 =>
    let s0 := N_of_ascii c0 in
    if (s0 <? 128)%N then (s0, 1%nat) else
    match first s0 with
    | None => (RuneError, 1%nat)
    | Some (sz, (lo, hi)) =>
      match t0 with
      | EmptyString => (RuneError, 1%nat)
      | String c1 t1 =>
        let s1 := N_of_ascii c1 in
        if (s1 <? lo)%N || (hi <? s1)%N then (RuneError, 1%nat)
        else if (sz <=? 2)%nat
        then (N.lor (N.shiftl (N.land s0 31) 6) (low6 s1), 2%nat)
        else
        match t1 with
        | EmptyString => (RuneError, 1%nat)
        | String c2 t2 =>
          let s2 := N_of_ascii c2 in
          if negb (cont s2) then (RuneError, 1%nat)
          else if (sz <=? 3)%nat
          then (N.lor (N.shiftl (N.land s0 15) 12)
                  (N.lor (N.shiftl (low6 s1) 6) (low6 s2)), 3%nat)
          else
          match t2 with
          | EmptyString => (RuneError, 1%nat)
          | String c3 _ =>
            let s3 := N_of_ascii c3 in
            if negb (cont s3) then (RuneError, 1%nat)
            else (N.lor (N.shiftl (N.land s0 7) 18)
                    (N.lor (N.shiftl (low6 s1) 12)
                       (N.lor (N.shiftl (low6 s2) 6) (low6 s3))), 4%nat)
          end
        end
      end
    end
  end.

(** The ASCII bytes the encoder copies unchanged when HTML escaping is on
    (the default of a new Encoder): printable ASCII and DEL, except the
    double quote, the backslash and the characters <, > and &. *)
Definition htmlSafe (b : N) : bool :=
  (32 <=? b)%N && (b <? 128)%N
  && negb ((b =? 34) || (b =? 92) || (b =? 60) || (b =? 62) || (b =? 38))%N.

(** The escape of an ASCII byte that is not [htmlSafe] (as in the Go
    releases contemporary with the package, where only the quote, the
    backslash, newline, carriage return and tab have short forms). *)
Definition escapeByte (b : N) : string :=
  if ((b =? 34) || (b =? 92))%N then String backslash (str (ascii_of_N b))
  else if (b =? 10)%N then String backslash "n"
  else if (b =? 13)%N then String backslash "r"
  else if (b =? 9)%N then String backslash "t"
  else String backslash "u00" ++ str (hex (N.shiftr b 4))
         ++ str (hex (N.land b 15)).

(** The loop of the encoder's string writer. [pending] counts the bytes
    ahead that belong to a rune already decoded; they are copied when
    [raw] is set and dropped otherwise (their escape was emitted). *)
Fixpoint quoteFrom (pending : nat) (raw : bool) (s : string) : string :=
  match s with
  | EmptyString => EmptyString
  | String c rest =>
    match pending with
    | S k => (if raw then String c else id) (quoteFrom k raw rest)
    | O =>
      let b := N_of_ascii c in
      if (b <? 128)%N then
        (if htmlSafe b then str c else escapeByte b)
          ++ quoteFrom 0 true rest
      else
        let '(r, size) := DecodeRuneInString s in
        if (r =? RuneError)%N && (size =? 1)%nat then
          String backslash "ufffd" ++ quoteFrom 0 true rest
        else if ((r =? 8232) || (r =? 8233))%N then
          String backslash "u202" ++ str (hex (N.land r 15))
            ++ quoteFrom (size - 1) false rest
        else String c (quoteFrom (size - 1) true rest)
    end
  end.

(** A Go string as a JSON string literal. *)
Definition quote (s : string) : string :=
  String dquote (quoteFrom 0 true s) ++ str dquote.

(** The values this package builds itself and hands to the encoder: a
    string, or a [map[string]interface{}] whose entries are listed in
    the order the encoder emits them (sorted by key). *)
Inductive value :=
| VString (s : string)
| VMap (entries : list (string * value)).

Definition joinComma (parts : list string) : string :=
  match parts with
  | [] => ""
  | p :: ps => fold_left (λ acc q, acc ++ "," ++ q) ps p
  end.

(** [json.Marshal] on those values. *)
Fixpoint marshalValue (v : value) : string :=
  match v with
  | VString s => quote s
  | VMap entries =>
    "{" ++ joinComma
             ((fix members (l : list (string * value)) : list string :=
                 match l with
                 | [] => []
                 | (k, x) :: l' =>
                   (quote k ++ ":" ++ marshalValue x) :: members l'
                 end) entries)
        ++ "}"
  end.

Definition Marshal (v : value) : string + error := inl (marshalValue v).

(** [json.NewEncoder(w).Encode(v)], given what marshalling [v] yields:
    on a marshalling error nothing is written and the error is returned;
    otherwise the text and a newline go out in one [Write], whose error
    is returned. *)
Definition Encode (marshalled : string + error) (w : ResponseWriter)
  : ResponseWriter * option error :=
  match marshalled with
  | inr err => (w, Some err)
  | inl text => (Write (text ++ str newline) w, WriteError w)
  end.


(** The text of the error envelope around an already escaped message,
    written out byte by byte, final newline included. *)
Definition envelopeText (escaped : string) : string :=
  "{" ++ str dquote ++ "error" ++ str dquote ++ ":"
      ++ str dquote ++ escaped ++ str dquote ++ "}" ++ str newline.

End Json.

(** ** The endpoint package's request types *)

(** Modelled from the spec: the declaration of [endpoint.StringRequest] lies
    outside the transport package; it is the record of three strings that
    the composite literal of [decodeStringRequest] initialises, the spec's
    OperationRequest. *)
Record StringRequest := mkStringRequest {
  RequestType : string;
  A : string;
  B : string
}.

(** Modelled from the spec: [endpoint.HealthRequest] is the empty marker
    value built by [decodeHealthCheckRequest]. *)
Record HealthRequest := mkHealthRequest { }.

(** ** Endpoints *)

Module Endpoint.

(** The [interface{}] requests that the decoders of the package build. *)
Inductive request :=
| INil
| IStringRequest (r : StringRequest)
| IHealthRequest (r : HealthRequest).

(** go-kit's [endpoint.Endpoint],
    [func(ctx, request interface{}) (response interface{}, err error)].
    An endpoint is an external collaborator and may keep state of its own,
    of type [E], which a call reads and updates. *)
Definition Endpoint (Response E : Type) : Type :=
  ∀ (ctx : Context) (req : request), E → (Response * option error) * E.

(** Modelled from the spec: [endpoint.StringEndpoints] is declared outside
    the transport package; [MakeHttpHandler] reads its two fields, the
    operation endpoint and the health endpoint of the spec. *)
Record StringEndpoints (Response E : Type) := mkEndpoints {
  StringEndpoint : Endpoint Response E;
  HealthCheckEndpoint : Endpoint Response E
}.

Arguments StringEndpoint {Response E} _.
Arguments HealthCheckEndpoint {Response E} _.

End Endpoint.

Export Endpoint.

(** ** The transport package: decoders and encoders *)

(** [var ErrorBadRequest = errors.New("invalid request parameter")],
    allocated once when the package is initialised. *)
Definition ErrorBadRequest : error :=
  errors_New 1%N "invalid request parameter".

(** [decodeStringRequest]: three presence checks on the route variables,
    in the order type, a, b, then the request literal. *)
Definition decodeStringRequest (_ : Context) (r : Request)
  : request * option error :=
  let vars := Mux.Vars r in
  match vars !! "type" with
  | None => (INil, Some ErrorBadRequest)
  | Some requestType =>
    match vars !! "a" with
    | None => (INil, Some ErrorBadRequest)
    | Some pa =>
      match vars !! "b" with
      | None => (INil, Some ErrorBadRequest)
      | Some pb =>
        (IStringRequest
           {| RequestType := requestType; A := pa; B := pb |}, None)
      end
    end
  end.

(** [decodeHealthCheckRequest] *)
Definition decodeHealthCheckRequest (ctx : Context) (r : Request)
  : request * option error :=
  (IHealthRequest mkHealthRequest, None).

(** [encodeError]: the content type, then the status of the only branch of
    the switch on the error, then the envelope; the result of [Encode] is
    dropped. *)
Definition encodeError (_ : Context) (err : error) (w : ResponseWriter)
  : ResponseWriter :=
  let w := HeaderSet "Content-Type" "application/json; charset=utf-8" w in
  let w := match err with
           | _ => WriteHeader StatusInternalServerError w
           end in
  fst (Json.Encode
         (Json.Marshal (Json.VMap [("error", Json.VString (Error err))])) w).

Section Transport.

(** [Response] stands for the dynamic values an endpoint may hand back as
    its [interface{}] response (nil included); [marshalResponse] is what
    encoding/json makes of such a value: the JSON text, or the
    marshalling error. *)
Context {Response : Type}.
Variable marshalResponse : Response → string + error.

(** [encodeStringResponse] *)
Definition encodeStringResponse (ctx : Context) (w : ResponseWriter)
    (response : Response) : ResponseWriter * option error :=
  let w := HeaderSet "Content-Type" "application/json;charset=utf-8" w in
  Json.Encode (marshalResponse response) w.

End Transport.

(** ** go-kit's HTTP server *)

Module Kit.
Section Kit.

(** [E] is the state of the endpoints behind the server, [L] the state
    of the logger. *)
Context {Response E L : Type}.

(** What lives across the calls of a handler: the collaborators' state. *)
Record Env := mkEnv { est : E; lst : L }.

Definition DecodeRequestFunc : Type :=
  ∀ (ctx : Context) (r : Request), request * option error.
Definition EncodeResponseFunc : Type :=
  ∀ (ctx : Context) (w : ResponseWriter) (response : Response),
    ResponseWriter * option error.
Definition ErrorEncoder : Type :=
  ∀ (ctx : Context) (err : error) (w : ResponseWriter), ResponseWriter.
Definition ErrorHandler : Type := ∀ (ctx : Context) (err : error), L → L.

(** go-kit's [log.Logger]: a sink for key/value lines. *)
Definition Logger : Type := list (string * error) → L → L.

(** [transport.NewLogErrorHandler(logger)]: logs the error under the key
    err. *)
Definition NewLogErrorHandler (logger : Logger) : ErrorHandler :=
  λ _ err, logger [("err", err)].

(** [kithttp.Server], without the before, after and finalizer hooks that
    no option of this package installs. *)
Record Server := mkServer {
  e : Endpoint Response E;
  dec : DecodeRequestFunc;
  enc : EncodeResponseFunc;
  errorEncoder : ErrorEncoder;
  errorHandler : ErrorHandler
}.

Definition ServerOption : Type := Server → Server.

Definition ServerErrorEncoder (ee : ErrorEncoder) : ServerOption :=
  λ s, {| e := e s; dec := dec s; enc := enc s;
          errorEncoder := ee; errorHandler := errorHandler s |}.

Definition ServerErrorHandler (h : ErrorHandler) : ServerOption :=
  λ s, {| e := e s; dec := dec s; enc := enc s;
          errorEncoder := errorEncoder s; errorHandler := h |}.

(** go-kit's defaults, replaced by the options of this package. *)
Variable DefaultErrorEncoder : ErrorEncoder.
Variable nopLogger : Logger.

(** [kithttp.NewServer(e, dec, enc, options...)] *)
Definition NewServer (e : Endpoint Response E) (dec : DecodeRequestFunc)
    (enc : EncodeResponseFunc) (options : list ServerOption) : Server :=
  fold_left (λ s option, option s) options
    {| e := e; dec := dec; enc := enc;
       errorEncoder := DefaultErrorEncoder;
       errorHandler := NewLogErrorHandler nopLogger |}.

(** The error path shared by the three failure points of [ServeHTTP]. *)
Definition fail (s : Server) (ctx : Context) (err : error)
    (w : ResponseWriter) (env : Env) : ResponseWriter * Env :=
  let l := errorHandler s ctx err (lst env) in
  (errorEncoder s ctx err w, {| est := est env; lst := l |}).

(** [Server.ServeHTTP]: decode, call the endpoint, encode; the first
    error met goes to the error handler and the error encoder, and the
    call returns. *)
Definition ServeHTTP (s : Server) (w : ResponseWriter) (r : Request)
    (env : Env) : ResponseWriter * Env :=
  let ctx := ReqContext r in
  let '(request, err) := dec s ctx r in
  match err with
  | Some err => fail s ctx err w env
  | None =>
    let '((response, err), est') := e s ctx request (est env) in
    let env := {| est := est'; lst := lst env |} in
    match err with
    | Some err => fail s ctx err w env
    | None =>
      let '(w, err) := enc s ctx w response in
      match err with
      | Some err => fail s ctx err w env
      | None => (w, env)
      end
    end
  end.

(** [http.Handler] *)
Definition Handler : Type :=
  ResponseWriter → Request → Env → ResponseWriter * Env.

End Kit.
End Kit.

(** ** gorilla/mux routes *)

Module Router.

(** The pieces of a string between slashes. *)
Fixpoint segments (s : string) : list string :=
  match s with
  | EmptyString => [""]
  | String c rest =>
    if Ascii.eqb c "/" then "" :: segments rest
    else match segments rest with
         | [] => [String c ""]
         | seg :: segs => String c seg :: segs
         end
  end.

(** A template segment of the form {name} is a variable. *)
Definition variable (seg : string) : option string :=
  match seg with
  | String "{" rest =>
    match String.length rest with
    | O => None
    | S n => if String.eqb (substring n 1 rest) "}"
             then Some (substring 0 n rest) else None
    end
  | _ => None
  end.

(** A template against a path, segment by segment: a variable takes one
    non-empty segment (mux's default pattern for a variable matches one
    or more characters other than the slash), anything else has to be
    equal. *)
Fixpoint matchSegments (tpl path : list string) (vars : gmap string string)
  : option (gmap string string) :=
  match tpl, path with
  | [], [] => Some vars
  | t :: tpl', p :: path' =>
    match variable t with
    | Some name =>
      if String.eqb p "" then None
      else matchSegments tpl' path' (<[name := p]> vars)
    | None =>
      if String.eqb t p then matchSegments tpl' path' vars else None
    end
  | _, _ => None
  end.

Definition matchPath (tpl path : string) : option (gmap string string) :=
  matchSegments (segments tpl) (segments path) ∅.

(** A route under construction: [Methods], [Path] and [Handler] each add
    one part. *)
Record Route (H : Type) := mkRoute {
  methods : list string;
  path : option string;
  handler : option H
}.
Arguments mkRoute {H} _ _ _.
Arguments methods {H} _.
Arguments path {H} _.
Arguments handler {H} _.

Definition NewRoute {H} : Route H :=
  {| methods := []; path := None; handler := None |}.
Definition Methods {H} (ms : list string) (rt : Route H) : Route H :=
  {| methods := methods rt ++ ms; path := path rt; handler := handler rt |}.
Definition Path {H} (tpl : string) (rt : Route H) : Route H :=
  {| methods := methods rt; path := Some tpl; handler := handler rt |}.
Definition Handle {H} (h : H) (rt : Route H) : Route H :=
  {| methods := methods rt; path := path rt; handler := Some h |}.

Definition methodOk {H} (rt : Route H) (m : string) : bool :=
  match methods rt with
  | [] => true
  | ms => existsb (String.eqb m) ms
  end.

Definition pathVars {H} (rt : Route H) (p : string)
  : option (gmap string string) :=
  match path rt with
  | None => Some ∅
  | Some tpl => matchPath tpl p
  end.

Inductive MatchResult (H : Type) :=
| Matched (h : H) (vars : gmap string string)
| MethodMismatch
| NotFound.
Arguments Matched {H} _ _.
Arguments MethodMismatch {H}.
Arguments NotFound {H}.

(** Route selection on a request whose path is in clean form: the first
    route, in registration order, whose method and path both match; when
    none does, a route that matched the path but not the method makes
    the answer a method mismatch. *)
Fixpoint Match {H} (routes : list (Route H)) (mismatch : bool)
    (r : Request) : MatchResult H :=
  match routes with
  | [] => if mismatch then MethodMismatch else NotFound
  | rt :: routes' =>
    match pathVars rt (URLPath r) with
    | None => Match routes' mismatch r
    | Some vars =>
      if methodOk rt (Method r) then
        match handler rt with
        | Some h => Matched h vars
        | None => NotFound
        end
      else Match routes' true r
    end
  end.

(** The request a matched handler receives: the route variables are
    stored in its context. *)
Definition withVars (vars : gmap string string) (r : Request) : Request :=
  {| ReqContext := ReqContext r; Method := Method r; URLPath := URLPath r;
     RawQuery := RawQuery r;
     ReqHeader := ReqHeader r; Body := Body r; routeVars := Some vars |}.

End Router.

(** ** The transport package: the route table *)

Section MakeHttpHandler.

Context {Response E L : Type}.
Variable marshalResponse : Response → string + error.
Variable DefaultErrorEncoder : @Kit.ErrorEncoder.
Variable nopLogger : @Kit.Logger L.

(** [promhttp.Handler()], the metrics collaborator. *)
Variable promhttpHandler : @Kit.Handler E L.

(** The [options] slice of [MakeHttpHandler]. *)
Definition options (logger : @Kit.Logger L)
  : list (@Kit.ServerOption Response E L) :=
  [ Kit.ServerErrorHandler (Kit.NewLogErrorHandler logger);
    Kit.ServerErrorEncoder encodeError ].

(** The server mounted on the operation route. *)
Definition stringServer (endpoints : StringEndpoints Response E)
    (logger : @Kit.Logger L) : @Kit.Server Response E L :=
  Kit.NewServer DefaultErrorEncoder nopLogger
    (StringEndpoint endpoints)
    decodeStringRequest
    (encodeStringResponse marshalResponse)
    (options logger).

(** The server mounted on the health route. *)
Definition healthServer (endpoints : StringEndpoints Response E)
    (logger : @Kit.Logger L) : @Kit.Server Response E L :=
  Kit.NewServer DefaultErrorEncoder nopLogger
    (HealthCheckEndpoint endpoints)
    decodeHealthCheckRequest
    (encodeStringResponse marshalResponse)
    (options logger).

(** [MakeHttpHandler]: the routes in the order they are registered on the
    new router. *)
Definition MakeHttpHandler (ctx : Context)
    (endpoints : StringEndpoints Response E) (logger : @Kit.Logger L)
  : list (Router.Route (@Kit.Handler E L)) :=
  [ Router.Handle (Kit.ServeHTTP (stringServer endpoints logger))
      (Router.Path "/op/{type}/{a}/{b}"
         (Router.Methods ["POST"] Router.NewRoute));
    Router.Handle promhttpHandler
      (Router.Path "/metrics" Router.NewRoute);
    Router.Handle (Kit.ServeHTTP (healthServer endpoints logger))
      (Router.Path "/health"
         (Router.Methods ["GET"] Router.NewRoute)) ].

End MakeHttpHandler.

(** ** Values used to state the properties *)

(** A request as the router hands it to a handler. *)
Definition routed (method urlpath : string) (vars : gmap string string)
  : Request :=
  {| ReqContext := Background; Method := method; URLPath := urlpath;
     RawQuery := "";
     ReqHeader := ∅; Body := ""; routeVars := Some vars |}.

(** What [encodeError] sends for an error: the marshalled envelope and the
    encoder's newline. *)
Definition errorBody (err : error) : string :=
  Json.marshalValue (Json.VMap [("error", Json.VString (Error err))])
    ++ Json.str Json.newline.

(** What [encodeStringResponse] sends for marshalled text. *)
Definition successBody (text : string) : string :=
  text ++ Json.str Json.newline.

(** ** Sample collaborators for the examples *)


(** Two responses an endpoint could return: a value that marshals to an
    object with a result member, and a channel, which encoding/json
    refuses. *)
Inductive sample :=
| SampleResult (result : string)
| SampleChan.

Definition marshalSample (v : sample) : string + error :=
  match v with
  | SampleResult result =>
    inl (Json.marshalValue (Json.VMap [("result", Json.VString result)]))
  | SampleChan => inr (errors_New 2%N "json: unsupported type: chan int")
  end.

(** An operation endpoint that concatenates and refuses other operation
    types, and a health endpoint; both count their calls in their state. *)
Definition sampleOp : Endpoint sample nat :=
  λ _ req n,
    match req with
    | IStringRequest r =>
      if String.eqb (RequestType r) "Concat"
      then ((SampleResult (A r ++ B r), None), S n)
      else ((SampleChan, Some (errors_New 3%N "invalid request type")), S n)
    | _ => ((SampleChan, Some (errors_New 4%N "unexpected request")), S n)
    end.

Definition sampleHealth : Endpoint sample nat :=
  λ _ _ n, ((SampleResult "ok", None), S n).

Definition sampleEndpoints : StringEndpoints sample nat :=
  {| StringEndpoint := sampleOp; HealthCheckEndpoint := sampleHealth |}.

(** A logger that keeps its lines, a default error encoder and a metrics
    handler. *)
Definition sampleLogger : @Kit.Logger (list (list (string * error))) :=
  λ line l, (l ++ [line])%list.

Definition sampleDefaultEncoder : Kit.ErrorEncoder :=
  λ _ _ w, WriteHeader 400 w.


Definition sampleEnv : @Kit.Env nat (list (list (string * error))) :=
  {| Kit.est := 0%nat; Kit.lst := [] |}.

(** The inverse of [Router.segments]: the pieces put back around
    slashes. *)
Fixpoint joinSegments (l : list string) : string :=
  match l with
  | [] => ""
  | [seg] => seg
  | seg :: rest => seg ++ "/" ++ joinSegments rest
  end.

(** A string without a slash. *)
Fixpoint slashFree (s : string) : bool :=
  match s with
  | EmptyString => true
  | String c rest => negb (Ascii.eqb c "/") && slashFree rest
  end.

(** A test that holds of every byte of a string. *)
Fixpoint allBytes (P : N → bool) (s : string) : bool :=
  match s with
  | EmptyString => true
  | String c rest => P (N_of_ascii c) && allBytes P rest
  end.

(** Bytes that are neither control characters nor one of <, > and &. *)
Definition wireSafe (b : N) : bool :=
  (32 <=? b)%N && negb ((b =? 60) || (b =? 62) || (b =? 38))%N.

(** The first [n] bytes of a string (or all of them, when it is shorter)
    are outside ASCII. *)
Fixpoint highPrefix (n : nat) (s : string) : bool :=
  match n, s with
  | O, _ => true
  | _, EmptyString => true
  | S k, String c rest => (128 <=? N_of_ascii c)%N && highPrefix k rest
  end.

(** Endpoints whose answer is a value that does not marshal. *)
Definition sampleUnmarshalable : StringEndpoints sample nat :=
  {| StringEndpoint := λ _ _ n, ((SampleChan, None), S n);
     HealthCheckEndpoint := λ _ _ n, ((SampleChan, None), S n) |}.



(** A writer on which a response has already started, with headers set
    before it did. *)
Definition startedWriter : ResponseWriter :=
  Write "partial"
    (HeaderSet "X-Request-Id" "42"
       (HeaderSet "Content-Type" "text/html" fresh)).

(** ** Proof steps for route matching *)

(** Evaluates [Router.variable] on the segments of a template. *)
Ltac template_segments :=
  repeat match goal with
         | |- context [Router.variable ?seg] =>
           let v := eval vm_compute in (Router.variable seg) in
           change (Router.variable seg) with v
         end;
  cbv iota.

(** Splits on the string comparisons left in a segment match. *)
Ltac compare_segments :=
  repeat match goal with
         | |- context [String.eqb ?x ?y] =>
           destruct (String.eqb_spec x y); subst; try discriminate
         end.

(** * Properties *)

(** ** The decoders *)

(** With the three route variables present the decoder builds the request
    from them. *)
Lemma decodeStringRequest_present (ctx : Context) (r : Request)
    (t a b : string) :
  Mux.Vars r !! "type" = Some t →
  Mux.Vars r !! "a" = Some a →
  Mux.Vars r !! "b" = Some b →
  decodeStringRequest ctx r
  = (IStringRequest {| RequestType := t; A := a; B := b |}, None).
Proof.
  intros Ht Ha Hb. unfold decodeStringRequest.
  now rewrite Ht, Ha, Hb.
Qed.

(** With one of them absent the decoder fails with [ErrorBadRequest]. *)
Lemma decodeStringRequest_absent (ctx : Context) (r : Request) :
  Mux.Vars r !! "type" = None ∨ Mux.Vars r !! "a" = None
  ∨ Mux.Vars r !! "b" = None →
  decodeStringRequest ctx r = (INil, Some ErrorBadRequest).
Proof.
  unfold decodeStringRequest. intros H.
  destruct (Mux.Vars r !! "type") as [t|]; [|reflexivity].
  destruct (Mux.Vars r !! "a") as [a|]; [|reflexivity].
  destruct (Mux.Vars r !! "b") as [b|]; [|reflexivity].
  destruct H as [H | [H | H]]; discriminate H.
Qed.

(** C2: on a request whose route variables hold type, a and b, the operation
    decoder succeeds and returns the request made of the three strings as
    they are. *)
Theorem decodeStringRequest_verbatim (ctx : Context) (r : Request)
    (t a b : string) :
  Mux.Vars r !! "type" = Some t →
  Mux.Vars r !! "a" = Some a →
  Mux.Vars r !! "b" = Some b →
  ∃ req : StringRequest,
    decodeStringRequest ctx r = (IStringRequest req, None)
    ∧ RequestType req = t ∧ A req = a ∧ B req = b.
Proof.
  intros Ht Ha Hb. eexists. split.
  - apply (decodeStringRequest_present ctx r t a b); assumption.
  - simpl. auto.
Qed.

Lemma decodeStringRequest_verbatim_witness :
  ∃ req : StringRequest,
    decodeStringRequest Background
      (routed "POST" "/op/Concat/ 07/x y"
         (<["type" := "Concat"]> (<["a" := " 07"]> (<["b" := "x y"]> ∅))))
    = (IStringRequest req, None)
    ∧ RequestType req = "Concat" ∧ A req = " 07" ∧ B req = "x y".
Proof.
  apply decodeStringRequest_verbatim; reflexivity.
Defined.

(** C4: the health decoder returns the empty marker and no error, whatever
    the context and the request are. *)
Theorem decodeHealthCheckRequest_constant (ctx : Context) (r : Request) :
  decodeHealthCheckRequest ctx r = (IHealthRequest mkHealthRequest, None).
Proof. reflexivity. Qed.

(** C9: presence is all the operation decoder checks: when the three route
    variables are there and some of them are the empty string, decoding
    succeeds and the empty string is in the corresponding field. *)
Theorem decodeStringRequest_empty_values (ctx : Context) (r : Request)
    (t a b : string) :
  Mux.Vars r !! "type" = Some t →
  Mux.Vars r !! "a" = Some a →
  Mux.Vars r !! "b" = Some b →
  t = "" ∨ a = "" ∨ b = "" →
  decodeStringRequest ctx r
  = (IStringRequest {| RequestType := t; A := a; B := b |}, None).
Proof.
  intros Ht Ha Hb _. now apply decodeStringRequest_present.
Qed.

Lemma decodeStringRequest_empty_values_witness :
  decodeStringRequest Background
    (routed "POST" "/op"
       (<["type" := ""]> (<["a" := "3"]> (<["b" := ""]> ∅))))
  = (IStringRequest {| RequestType := ""; A := "3"; B := "" |}, None).
Proof.
  apply decodeStringRequest_empty_values;
    [reflexivity | reflexivity | reflexivity | left; reflexivity].
Defined.

(** ** The response writer *)

Section WriterFacts.

Variables (w : ResponseWriter) (key value data : string) (code : Z).

Lemma HeaderSet_lookup : header (HeaderSet key value w) !! key = Some [value].
Proof. unfold HeaderSet. simpl. apply lookup_insert_eq. Qed.

Lemma HeaderSet_wroteHeader :
  wroteHeader (HeaderSet key value w) = wroteHeader w.
Proof. reflexivity. Qed.

Lemma HeaderSet_calls :
  calls (HeaderSet key value w) = (calls w ++ [CallHeaderSet key value])%list.
Proof. reflexivity. Qed.

Lemma HeaderSet_body : body (HeaderSet key value w) = body w.
Proof. reflexivity. Qed.

Lemma WriteHeader_calls :
  calls (WriteHeader code w) = (calls w ++ [CallWriteHeader code])%list.
Proof. unfold WriteHeader, commit. simpl. now destruct (wroteHeader w). Qed.

Lemma WriteHeader_body : body (WriteHeader code w) = body w.
Proof. unfold WriteHeader, commit. simpl. now destruct (wroteHeader w). Qed.

Lemma WriteHeader_first :
  wroteHeader w = false →
  wroteHeader (WriteHeader code w) = true
  ∧ status (WriteHeader code w) = code
  ∧ sentHeader (WriteHeader code w) = header w.
Proof. intros H. unfold WriteHeader, commit. simpl. now rewrite H. Qed.

Lemma Write_calls : calls (Write data w) = (calls w ++ [CallWrite data])%list.
Proof. unfold Write, commit. simpl. now destruct (wroteHeader w). Qed.

Lemma Write_body : body (Write data w) = body w ++ data.
Proof. unfold Write, commit. simpl. now destruct (wroteHeader w). Qed.

Lemma Write_header : header (Write data w) = header w.
Proof. unfold Write, commit. simpl. now destruct (wroteHeader w). Qed.

Lemma Write_first :
  wroteHeader w = false →
  status (Write data w) = StatusOK ∧ sentHeader (Write data w) = header w.
Proof. intros H. unfold Write, commit. simpl. now rewrite H. Qed.

Lemma Write_later :
  wroteHeader w = true →
  status (Write data w) = status w
  ∧ sentHeader (Write data w) = sentHeader w.
Proof. intros H. unfold Write, commit. simpl. now rewrite H. Qed.

End WriterFacts.

Lemma explicitStatus_snoc (w w' : ResponseWriter) (c : Call) :
  calls w' = (calls w ++ [c])%list →
  explicitStatus w'
  = (explicitStatus w
       ++ match c with CallWriteHeader n => [n] | _ => [] end)%list.
Proof.
  intros H. unfold explicitStatus. rewrite H, omap_app. now destruct c.
Qed.

Lemma writes_snoc (w w' : ResponseWriter) (c : Call) :
  calls w' = (calls w ++ [c])%list →
  writes w'
  = (writes w ++ match c with CallWrite d => [d] | _ => [] end)%list.
Proof.
  intros H. unfold writes. rewrite H, omap_app. now destruct c.
Qed.

(** ** The JSON string writer *)



Lemma append_assoc (a b c : string) : (a ++ b) ++ c = a ++ (b ++ c).
Proof.
  induction a as [|x a IH]; [reflexivity|].
  change (String x ((a ++ b) ++ c) = String x (a ++ (b ++ c))).
  now f_equal.
Qed.


(** ** The encoders *)

(** What the error encoder does to a writer that has not committed a status
    yet. *)
Lemma encodeError_effect (ctx : Context) (err : error)
    (w : ResponseWriter) :
  wroteHeader w = false →
  let w' := encodeError ctx err w in
  status w' = StatusInternalServerError
  ∧ explicitStatus w' = (explicitStatus w ++ [500])%list
  ∧ sentHeader w' !! "Content-Type"
    = Some ["application/json; charset=utf-8"]
  ∧ writes w' = (writes w ++ [errorBody err])%list
  ∧ body w' = body w ++ errorBody err.
Proof.
  intros Hfresh w'.
  assert (Hw' : w' = Write (errorBody err)
                   (WriteHeader StatusInternalServerError
                      (HeaderSet "Content-Type"
                         "application/json; charset=utf-8" w)))
    by reflexivity.
  set (w1 := HeaderSet "Content-Type" "application/json; charset=utf-8" w)
    in Hw'.
  set (w2 := WriteHeader StatusInternalServerError w1) in Hw'.
  destruct (WriteHeader_first w1 StatusInternalServerError Hfresh)
    as (Hwrote & Hstatus & Hsent).
  fold w2 in Hwrote, Hstatus, Hsent.
  destruct (Write_later w2 (errorBody err) Hwrote) as (Hst & Hsh).
  rewrite <- Hw' in Hst, Hsh.
  assert (Hcalls2 : calls w2 = (calls w ++
            [CallHeaderSet "Content-Type" "application/json; charset=utf-8"]
            ++ [CallWriteHeader 500])%list).
  { unfold w2. rewrite WriteHeader_calls. unfold w1.
    rewrite HeaderSet_calls, <- app_assoc. reflexivity. }
  assert (Hcalls : calls w' = (calls w2 ++ [CallWrite (errorBody err)])%list).
  { rewrite Hw'. apply Write_calls. }
  repeat split.
  - now rewrite Hst.
  - rewrite (explicitStatus_snoc w2 w' _ Hcalls). simpl.
    rewrite app_nil_r. unfold explicitStatus. rewrite Hcalls2.
    now rewrite !omap_app.
  - rewrite Hsh, Hsent. apply HeaderSet_lookup.
  - rewrite (writes_snoc w2 w' _ Hcalls). simpl.
    unfold writes at 1. rewrite Hcalls2, !omap_app. simpl.
    now rewrite app_nil_r.
  - rewrite Hw', Write_body. unfold w2. rewrite WriteHeader_body.
    reflexivity.
Qed.



Section EncodeStringResponse.

Context {Response : Type}.
Variable marshalResponse : Response → string + error.

(** The success encoder is its two statements. *)
Lemma encodeStringResponse_unfold (ctx : Context) (w : ResponseWriter)
    (response : Response) :
  encodeStringResponse marshalResponse ctx w response
  = Json.Encode (marshalResponse response)
      (HeaderSet "Content-Type" "application/json;charset=utf-8" w).
Proof. reflexivity. Qed.

(** C5: for every response value the success encoder sets the content type
    to application/json;charset=utf-8 and never calls WriteHeader; when the
    value marshals, the one thing written is its JSON text (with the
    encoder's newline), what is returned is the error of that write (none
    on a connection that takes it), and on a writer that has not committed
    a status the response goes out with the implicit 200 and that content
    type. *)
Theorem encodeStringResponse_writes_json (ctx : Context)
    (w : ResponseWriter) (response : Response) :
  wroteHeader w = false →
  let w' := fst (encodeStringResponse marshalResponse ctx w response) in
  let err := snd (encodeStringResponse marshalResponse ctx w response) in
  header w' !! "Content-Type" = Some ["application/json;charset=utf-8"]
  ∧ explicitStatus w' = explicitStatus w
  ∧ match marshalResponse response with
    | inl text =>
      err = WriteError w
      ∧ writes w' = (writes w ++ [successBody text])%list
      ∧ body w' = body w ++ successBody text
      ∧ status w' = StatusOK ∧ StatusOK = 200
      ∧ sentHeader w' !! "Content-Type"
        = Some ["application/json;charset=utf-8"]
    | inr e => err = Some e ∧ writes w' = writes w ∧ body w' = body w
    end.
Proof.
  intros Hfresh. rewrite encodeStringResponse_unfold.
  set (w1 := HeaderSet "Content-Type" "application/json;charset=utf-8" w).
  assert (H1 : calls w1 = (calls w ++ [CallHeaderSet "Content-Type"
                             "application/json;charset=utf-8"])%list)
    by apply HeaderSet_calls.
  destruct (marshalResponse response) as [text | e];
    cbn [Json.Encode fst snd].
  - fold (successBody text).
    assert (H2 : calls (Write (successBody text) w1)
                 = (calls w1 ++ [CallWrite (successBody text)])%list)
      by apply Write_calls.
    destruct (Write_first w1 (successBody text) Hfresh) as [Hst Hsh].
    repeat split.
    + rewrite Write_header. apply HeaderSet_lookup.
    + rewrite (explicitStatus_snoc _ _ _ H2), (explicitStatus_snoc _ _ _ H1).
      simpl. now rewrite !app_nil_r.
    + rewrite (writes_snoc _ _ _ H2), (writes_snoc _ _ _ H1).
      simpl. now rewrite app_nil_r.
    + now rewrite Write_body.
    + exact Hst.
    + rewrite Hsh. apply HeaderSet_lookup.
  - repeat split.
    + apply HeaderSet_lookup.
    + rewrite (explicitStatus_snoc _ _ _ H1). simpl. now rewrite app_nil_r.
    + rewrite (writes_snoc _ _ _ H1). simpl. now rewrite app_nil_r.
Qed.

(** C10: the content type is set before marshalling is attempted: when the
    response does not marshal, the encoder returns the marshalling error
    and hands back a writer that already carries the success content type
    (one more call on its record, nothing written). *)
Theorem encodeStringResponse_failure_not_atomic (ctx : Context)
    (w : ResponseWriter) (response : Response) (e : error) :
  marshalResponse response = inr e →
  let w' := fst (encodeStringResponse marshalResponse ctx w response) in
  snd (encodeStringResponse marshalResponse ctx w response) = Some e
  ∧ w' = HeaderSet "Content-Type" "application/json;charset=utf-8" w
  ∧ header w' !! "Content-Type" = Some ["application/json;charset=utf-8"]
  ∧ calls w' = (calls w ++ [CallHeaderSet "Content-Type"
                              "application/json;charset=utf-8"])%list
  ∧ w' ≠ w
  ∧ body w' = body w ∧ writes w' = writes w
  ∧ wroteHeader w' = wroteHeader w.
Proof.
  intros Hfail. rewrite encodeStringResponse_unfold, Hfail.
  cbn [Json.Encode fst snd].
  assert (H1 : calls (HeaderSet "Content-Type"
                        "application/json;charset=utf-8" w)
               = (calls w ++ [CallHeaderSet "Content-Type"
                                "application/json;charset=utf-8"])%list)
    by apply HeaderSet_calls.
  repeat split.
  - apply HeaderSet_lookup.
  - intros Heq. rewrite Heq in H1. apply (f_equal length) in H1.
    rewrite length_app in H1. simpl in H1. lia.
  - rewrite (writes_snoc _ _ _ H1). simpl. now rewrite app_nil_r.
Qed.

End EncodeStringResponse.

Lemma encodeStringResponse_writes_json_witness :
  let w' := fst (encodeStringResponse marshalSample Background fresh
                   (SampleResult "7")) in
  header w' !! "Content-Type" = Some ["application/json;charset=utf-8"]
  ∧ explicitStatus w' = []
  ∧ snd (encodeStringResponse marshalSample Background fresh
           (SampleResult "7")) = None
  ∧ body w' = "{" ++ Json.quote "result" ++ ":" ++ Json.quote "7" ++ "}"
                ++ Json.str Json.newline
  ∧ status w' = 200.
Proof.
  pose proof (encodeStringResponse_writes_json marshalSample Background
                fresh (SampleResult "7") eq_refl) as H.
  cbv zeta in H. cbn [marshalSample] in H.
  destruct H as (Hh & He & Herr & _ & Hb & Hs & _).
  exact (conj Hh (conj He (conj Herr (conj Hb Hs)))).
Defined.

Lemma encodeStringResponse_failure_not_atomic_witness :
  let r := encodeStringResponse marshalSample Background fresh SampleChan in
  snd r = Some (errors_New 2%N "json: unsupported type: chan int")
  ∧ header fresh !! "Content-Type" = None
  ∧ header (fst r) !! "Content-Type"
    = Some ["application/json;charset=utf-8"]
  ∧ body (fst r) = "".
Proof.
  pose proof (encodeStringResponse_failure_not_atomic marshalSample
                Background fresh SampleChan _ eq_refl) as H.
  cbv zeta in H. destruct H as (He & _ & Hh & _ & _ & Hb & _).
  exact (conj He (conj eq_refl (conj Hh Hb))).
Defined.

(** ** More on the response writer *)

Lemma WriteHeader_header (w : ResponseWriter) (code : Z) :
  header (WriteHeader code w) = header w.
Proof. unfold WriteHeader, commit. simpl. now destruct (wroteHeader w). Qed.

Lemma HeaderSet_lookup_ne (w : ResponseWriter) (key value k : string) :
  k ≠ key → header (HeaderSet key value w) !! k = header w !! k.
Proof. intros Hne. unfold HeaderSet. simpl. now apply lookup_insert_ne. Qed.

Lemma WriteHeader_later (w : ResponseWriter) (code : Z) :
  wroteHeader w = true →
  wroteHeader (WriteHeader code w) = true
  ∧ status (WriteHeader code w) = status w
  ∧ sentHeader (WriteHeader code w) = sentHeader w.
Proof. intros H. unfold WriteHeader, commit. simpl. now rewrite H. Qed.

Lemma Write_wroteHeader (w : ResponseWriter) (data : string) :
  wroteHeader (Write data w) = true.
Proof.
  unfold Write, commit. simpl.
  destruct (wroteHeader w) eqn:H; simpl; [exact H | reflexivity].
Qed.

(** The error encoder as the three calls it makes. *)
Lemma encodeError_unfold (ctx : Context) (err : error) (w : ResponseWriter) :
  encodeError ctx err w
  = Write (errorBody err)
      (WriteHeader StatusInternalServerError
         (HeaderSet "Content-Type" "application/json; charset=utf-8" w)).
Proof. reflexivity. Qed.


(** What the error encoder does to a writer whose response has started:
    the status and the headers sent stay, the envelope follows what was
    written. *)
Lemma encodeError_late_effect (ctx : Context) (err : error)
    (w : ResponseWriter) :
  wroteHeader w = true →
  let w' := encodeError ctx err w in
  status w' = status w
  ∧ sentHeader w' = sentHeader w
  ∧ explicitStatus w' = (explicitStatus w ++ [500])%list
  ∧ writes w' = (writes w ++ [errorBody err])%list
  ∧ body w' = body w ++ errorBody err.
Proof.
  intros Hw w'. unfold w'. rewrite encodeError_unfold.
  set (w1 := HeaderSet "Content-Type" "application/json; charset=utf-8" w).
  assert (H1 : wroteHeader w1 = true) by exact Hw.
  destruct (WriteHeader_later w1 StatusInternalServerError H1)
    as (H2 & Hst2 & Hsh2).
  destruct (Write_later _ (errorBody err) H2) as (Hst3 & Hsh3).
  assert (Hc1 : calls w1 = (calls w ++ [CallHeaderSet "Content-Type"
                              "application/json; charset=utf-8"])%list)
    by apply HeaderSet_calls.
  assert (Hc2 : calls (WriteHeader StatusInternalServerError w1)
                = (calls w1 ++ [CallWriteHeader 500])%list)
    by apply WriteHeader_calls.
  assert (Hc3 : calls (Write (errorBody err)
                         (WriteHeader StatusInternalServerError w1))
                = (calls (WriteHeader StatusInternalServerError w1)
                     ++ [CallWrite (errorBody err)])%list)
    by apply Write_calls.
  split; [now rewrite Hst3, Hst2|].
  split; [now rewrite Hsh3, Hsh2|].
  split.
  { rewrite (explicitStatus_snoc _ _ _ Hc3), (explicitStatus_snoc _ _ _ Hc2),
      (explicitStatus_snoc _ _ _ Hc1). simpl. now rewrite !app_nil_r. }
  split.
  { rewrite (writes_snoc _ _ _ Hc3), (writes_snoc _ _ _ Hc2),
      (writes_snoc _ _ _ Hc1). simpl. now rewrite !app_nil_r. }
  now rewrite Write_body, WriteHeader_body.
Qed.

(** ** The pipeline of a go-kit server *)

Section Pipeline.

Context {Response E L : Type}.
Variable marshalResponse : Response → string + error.

(** A decode failure ends the call before the endpoint. *)
Lemma ServeHTTP_decode_failure (s : @Kit.Server Response E L)
    (w : ResponseWriter) (r : Request) (env : Kit.Env)
    (req : request) (err : error) :
  Kit.dec s (ReqContext r) r = (req, Some err) →
  Kit.ServeHTTP s w r env
  = (Kit.errorEncoder s (ReqContext r) err w,
     {| Kit.est := Kit.est env;
        Kit.lst := Kit.errorHandler s (ReqContext r) err (Kit.lst env) |}).
Proof. intros H. unfold Kit.ServeHTTP. now rewrite H. Qed.


(** What the success encoder does when the response marshals, on a writer
    that has not committed a status: it returns the error of its one
    write. *)
Lemma encodeStringResponse_effect (ctx : Context) (w : ResponseWriter)
    (response : Response) (text : string) :
  marshalResponse response = inl text →
  wroteHeader w = false →
  ∃ w', encodeStringResponse marshalResponse ctx w response
        = (w', WriteError w)
    ∧ writes w' = (writes w ++ [successBody text])%list
    ∧ body w' = body w ++ successBody text
    ∧ status w' = StatusOK
    ∧ explicitStatus w' = explicitStatus w
    ∧ sentHeader w' !! "Content-Type"
      = Some ["application/json;charset=utf-8"]
    ∧ wroteHeader w' = true.
Proof.
  intros Hm Hfresh. rewrite encodeStringResponse_unfold, Hm.
  cbn [Json.Encode]. fold (successBody text).
  set (w1 := HeaderSet "Content-Type" "application/json;charset=utf-8" w).
  assert (H1 : calls w1 = (calls w ++ [CallHeaderSet "Content-Type"
                             "application/json;charset=utf-8"])%list)
    by apply HeaderSet_calls.
  assert (H2 : calls (Write (successBody text) w1)
               = (calls w1 ++ [CallWrite (successBody text)])%list)
    by apply Write_calls.
  destruct (Write_first w1 (successBody text) Hfresh) as [Hst Hsh].
  eexists. split; [reflexivity|]. repeat split.
  - rewrite (writes_snoc _ _ _ H2), (writes_snoc _ _ _ H1).
    simpl. now rewrite app_nil_r.
  - now rewrite Write_body.
  - exact Hst.
  - rewrite (explicitStatus_snoc _ _ _ H2), (explicitStatus_snoc _ _ _ H1).
    simpl. now rewrite !app_nil_r.
  - rewrite Hsh. apply HeaderSet_lookup.
  - apply Write_wroteHeader.
Qed.

(** What the error encoder does after the success encoder gave up. *)
Lemma encodeError_after_failed_encode (ctx : Context) (w : ResponseWriter)
    (response : Response) (err : error) :
  marshalResponse response = inr err →
  wroteHeader w = false →
  ∃ w1, encodeStringResponse marshalResponse ctx w response = (w1, Some err)
    ∧ writes (encodeError ctx err w1) = (writes w ++ [errorBody err])%list
    ∧ body (encodeError ctx err w1) = body w ++ errorBody err
    ∧ status (encodeError ctx err w1) = StatusInternalServerError
    ∧ sentHeader (encodeError ctx err w1) !! "Content-Type"
      = Some ["application/json; charset=utf-8"].
Proof.
  intros Hm Hfresh. rewrite encodeStringResponse_unfold, Hm.
  cbn [Json.Encode].
  set (w1 := HeaderSet "Content-Type" "application/json;charset=utf-8" w).
  assert (H1 : calls w1 = (calls w ++ [CallHeaderSet "Content-Type"
                             "application/json;charset=utf-8"])%list)
    by apply HeaderSet_calls.
  destruct (encodeError_effect ctx err w1 Hfresh) as (Hs & _ & Hh & Hw & Hb).
  exists w1. split; [reflexivity|]. repeat split.
  - rewrite Hw, (writes_snoc _ _ _ H1). simpl. now rewrite app_nil_r.
  - rewrite Hb. reflexivity.
  - exact Hs.
  - exact Hh.
Qed.

(** The outcome of a call on a server that encodes with the two encoders
    of the package, when the connection takes the next write: one chunk, a
    success body or an error body. *)
Lemma ServeHTTP_one_chunk (s : @Kit.Server Response E L)
    (w : ResponseWriter) (r : Request) (env : Kit.Env) :
  Kit.enc s = encodeStringResponse marshalResponse →
  Kit.errorEncoder s = encodeError →
  wroteHeader w = false →
  WriteError w = None →
  let w' := fst (Kit.ServeHTTP s w r env) in
  ∃ chunk : string,
    writes w' = (writes w ++ [chunk])%list
    ∧ body w' = body w ++ chunk
    ∧ ((∃ req resp est' text,
          Kit.dec s (ReqContext r) r = (req, None)
          ∧ Kit.e s (ReqContext r) req (Kit.est env) = ((resp, None), est')
          ∧ marshalResponse resp = inl text
          ∧ chunk = successBody text
          ∧ status w' = StatusOK
          ∧ explicitStatus w' = explicitStatus w
          ∧ sentHeader w' !! "Content-Type"
            = Some ["application/json;charset=utf-8"])
       ∨ (∃ err,
            chunk = errorBody err
            ∧ status w' = StatusInternalServerError
            ∧ sentHeader w' !! "Content-Type"
              = Some ["application/json; charset=utf-8"])).
Proof.
  intros Henc Hee Hfresh Hok. unfold Kit.ServeHTTP.
  destruct (Kit.dec s (ReqContext r) r) as [req [err|]] eqn:Hd.
  { unfold Kit.fail. rewrite Hee. cbn [fst].
    destruct (encodeError_effect (ReqContext r) err w Hfresh)
      as (Hs & _ & Hh & Hw & Hb).
    exists (errorBody err). split; [exact Hw|]. split; [exact Hb|].
    right. exists err. auto. }
  destruct (Kit.e s (ReqContext r) req (Kit.est env)) as [[resp [err|]] est']
    eqn:He.
  { unfold Kit.fail. rewrite Hee. cbn [fst].
    destruct (encodeError_effect (ReqContext r) err w Hfresh)
      as (Hs & _ & Hh & Hw & Hb).
    exists (errorBody err). split; [exact Hw|]. split; [exact Hb|].
    right. exists err. auto. }
  rewrite Henc.
  destruct (marshalResponse resp) as [text|err] eqn:Hm.
  - destruct (encodeStringResponse_effect (ReqContext r) w resp text Hm Hfresh)
      as (w1 & -> & Hw & Hb & Hs & Hx & Hh & _).
    rewrite Hok. cbn [fst]. exists (successBody text).
    split; [exact Hw|]. split; [exact Hb|].
    left. exists req, resp, est', text. auto 10.
  - destruct (encodeError_after_failed_encode (ReqContext r) w resp err Hm
                Hfresh) as (w1 & -> & Hw & Hb & Hs & Hh).
    unfold Kit.fail. rewrite Hee. cbn [fst].
    exists (errorBody err). split; [exact Hw|]. split; [exact Hb|].
    right. exists err. auto.
Qed.

(** The outcome of a call when the connection refuses the next write: the
    call fails before the success body is written, with one error body;
    or the success body is handed over, its write fails, and the error
    path runs on the writer as it is then: the status stays 200 and the
    error body follows the success body. *)
Lemma ServeHTTP_failing_write (s : @Kit.Server Response E L)
    (w : ResponseWriter) (r : Request) (env : Kit.Env) (werr : error) :
  Kit.enc s = encodeStringResponse marshalResponse →
  Kit.errorEncoder s = encodeError →
  wroteHeader w = false →
  WriteError w = Some werr →
  let out := Kit.ServeHTTP s w r env in
  (∃ err,
     writes (fst out) = (writes w ++ [errorBody err])%list
     ∧ body (fst out) = body w ++ errorBody err
     ∧ status (fst out) = StatusInternalServerError
     ∧ sentHeader (fst out) !! "Content-Type"
       = Some ["application/json; charset=utf-8"]
     ∧ Kit.lst (snd out)
       = Kit.errorHandler s (ReqContext r) err (Kit.lst env))
  ∨ (∃ req resp est' text,
       Kit.dec s (ReqContext r) r = (req, None)
       ∧ Kit.e s (ReqContext r) req (Kit.est env) = ((resp, None), est')
       ∧ marshalResponse resp = inl text
       ∧ writes (fst out)
         = (writes w ++ [successBody text; errorBody werr])%list
       ∧ body (fst out) = body w ++ successBody text ++ errorBody werr
       ∧ status (fst out) = StatusOK
       ∧ explicitStatus (fst out) = (explicitStatus w ++ [500])%list
       ∧ sentHeader (fst out) !! "Content-Type"
         = Some ["application/json;charset=utf-8"]
       ∧ snd out
         = {| Kit.est := est';
              Kit.lst := Kit.errorHandler s (ReqContext r) werr
                           (Kit.lst env) |}).
Proof.
  intros Henc Hee Hfresh Hbad out. unfold out, Kit.ServeHTTP.
  destruct (Kit.dec s (ReqContext r) r) as [req [err|]] eqn:Hd.
  { left. exists err. unfold Kit.fail. rewrite Hee. cbn [fst snd].
    destruct (encodeError_effect (ReqContext r) err w Hfresh)
      as (Hs & _ & Hh & Hw & Hb). auto 10. }
  destruct (Kit.e s (ReqContext r) req (Kit.est env)) as [[resp [err|]] est']
    eqn:He.
  { left. exists err. unfold Kit.fail. rewrite Hee. cbn [fst snd].
    destruct (encodeError_effect (ReqContext r) err w Hfresh)
      as (Hs & _ & Hh & Hw & Hb). auto 10. }
  rewrite Henc.
  destruct (marshalResponse resp) as [text|err] eqn:Hm.
  - right. exists req, resp, est', text.
    destruct (encodeStringResponse_effect (ReqContext r) w resp text Hm Hfresh)
      as (w1 & -> & Hw & Hb & Hs & Hx & Hh & Hwrote).
    rewrite Hbad. unfold Kit.fail. rewrite Hee. cbn [fst snd].
    destruct (encodeError_late_effect (ReqContext r) werr w1 Hwrote)
      as (Hs2 & Hh2 & Hx2 & Hw2 & Hb2).
    split; [first [reflexivity | assumption]|].
    split; [first [reflexivity | assumption]|].
    split; [first [reflexivity | assumption]|].
    split; [now rewrite Hw2, Hw, <- app_assoc|].
    split; [now rewrite Hb2, Hb, append_assoc|].
    split; [now rewrite Hs2|].
    split; [now rewrite Hx2, Hx|].
    split; [now rewrite Hh2|]. reflexivity.
  - left. exists err.
    destruct (encodeError_after_failed_encode (ReqContext r) w resp err Hm
                Hfresh) as (w1 & -> & Hw & Hb & Hs & Hh).
    unfold Kit.fail. rewrite Hee. cbn [fst snd]. auto 10.
Qed.

End Pipeline.

(** ** The route table *)

(** A path that matches the operation template has the five segments the
    template has, the last three not empty, and they are what the route
    variables hold. *)
Lemma matchPath_op (p : string) (vars : gmap string string) :
  Router.matchPath "/op/{type}/{a}/{b}" p = Some vars →
  ∃ t a b,
    Router.segments p = [""; "op"; t; a; b]
    ∧ t ≠ "" ∧ a ≠ "" ∧ b ≠ ""
    ∧ vars = <["b" := b]> (<["a" := a]> (<["type" := t]> ∅)).
Proof.
  unfold Router.matchPath.
  change (Router.segments "/op/{type}/{a}/{b}")
    with [""; "op"; "{type}"; "{a}"; "{b}"].
  destruct (Router.segments p) as [|s0 [|s1 [|s2 [|s3 [|s4 [|s5 l]]]]]];
    cbn [Router.matchSegments]; try discriminate;
    template_segments; compare_segments; try discriminate.
  intros [= <-]. exists s2, s3, s4. auto.
Qed.

(** Every request the router matches against the operation template
    decodes, into the three path segments. *)
Lemma routed_request_decodes (ctx : Context) (r : Request)
    (vars : gmap string string) :
  Router.matchPath "/op/{type}/{a}/{b}" (URLPath r) = Some vars →
  ∃ t a b,
    Router.segments (URLPath r) = [""; "op"; t; a; b]
    ∧ decodeStringRequest ctx (Router.withVars vars r)
      = (IStringRequest {| RequestType := t; A := a; B := b |}, None).
Proof.
  intros H. destruct (matchPath_op _ _ H) as (t & a & b & Hs & _ & _ & _ & ->).
  exists t, a, b. split; [exact Hs|].
  apply decodeStringRequest_present; unfold Mux.Vars; simpl.
  - rewrite !lookup_insert_ne by discriminate. apply lookup_insert_eq.
  - rewrite lookup_insert_ne by discriminate. apply lookup_insert_eq.
  - apply lookup_insert_eq.
Qed.

(** ** The handler built by MakeHttpHandler *)

Section Handler.

Context {Response E L : Type}.
Variable marshalResponse : Response → string + error.
Variable DefaultErrorEncoder : Kit.ErrorEncoder.
Variable nopLogger : @Kit.Logger L.
Variable promhttpHandler : @Kit.Handler E L.
Variable endpoints : StringEndpoints Response E.
Variable logger : @Kit.Logger L.

Local Abbreviation opServer :=
  (stringServer marshalResponse DefaultErrorEncoder nopLogger endpoints
     logger).
Local Abbreviation hcServer :=
  (healthServer marshalResponse DefaultErrorEncoder nopLogger endpoints
     logger).
Local Abbreviation routes :=
  (MakeHttpHandler marshalResponse DefaultErrorEncoder nopLogger
     promhttpHandler Background endpoints logger).


(** C3: a request that lacks one of the route variables type, a, b is
    refused with the one error value [ErrorBadRequest], whose text is
    invalid request parameter, next to a nil request; the operation server
    then answers through the error encoder and leaves the endpoints' state
    as it was: the endpoint is not called. *)
Theorem missing_variable_is_bad_request (ctx : Context) (r : Request) :
  Mux.Vars r !! "type" = None ∨ Mux.Vars r !! "a" = None
  ∨ Mux.Vars r !! "b" = None →
  decodeStringRequest ctx r = (INil, Some ErrorBadRequest)
  ∧ Error ErrorBadRequest = "invalid request parameter"
  ∧ ∀ (w : ResponseWriter) (env : Kit.Env),
      Kit.ServeHTTP opServer w r env
      = (encodeError (ReqContext r) ErrorBadRequest w,
         {| Kit.est := Kit.est env;
            Kit.lst := logger [("err", ErrorBadRequest)] (Kit.lst env) |})
      ∧ Kit.est (snd (Kit.ServeHTTP opServer w r env)) = Kit.est env.
Proof.
  intros Hmiss. split; [now apply decodeStringRequest_absent|].
  split; [reflexivity|]. intros w env.
  assert (Hd : Kit.dec opServer (ReqContext r) r = (INil, Some ErrorBadRequest))
    by now apply decodeStringRequest_absent.
  rewrite (ServeHTTP_decode_failure opServer w r env _ _ Hd).
  split; reflexivity.
Qed.


(** C7: the handler has three routes and no other: POST on the operation
    template, served by the go-kit server made of the operation endpoint,
    the path-variable decoder and the two encoders; the metrics path, for
    any method, served by the metrics handler itself; GET on the health
    path, served by the go-kit server made of the health endpoint, the
    empty decoder and the two encoders. *)
Theorem MakeHttpHandler_routes :
  length routes = 3%nat
  ∧ routes
    = [ Router.mkRoute ["POST"] (Some "/op/{type}/{a}/{b}")
          (Some (Kit.ServeHTTP opServer));
        Router.mkRoute [] (Some "/metrics") (Some promhttpHandler);
        Router.mkRoute ["GET"] (Some "/health")
          (Some (Kit.ServeHTTP hcServer)) ]
  ∧ (Kit.e opServer = StringEndpoint endpoints
     ∧ Kit.dec opServer = decodeStringRequest
     ∧ Kit.enc opServer = encodeStringResponse marshalResponse
     ∧ Kit.errorEncoder opServer = encodeError)
  ∧ (Kit.e hcServer = HealthCheckEndpoint endpoints
     ∧ Kit.dec hcServer = decodeHealthCheckRequest
     ∧ Kit.enc hcServer = encodeStringResponse marshalResponse
     ∧ Kit.errorEncoder hcServer = encodeError)
  ∧ (∀ r : Request,
       URLPath r = "/metrics" →
       Router.Match routes false r = Router.Matched promhttpHandler ∅)
  ∧ Router.Match routes false (routed "POST" "/op/add/3/4" ∅)
    = Router.Matched (Kit.ServeHTTP opServer)
        (<["b" := "4"]> (<["a" := "3"]> (<["type" := "add"]> ∅)))
  ∧ Router.Match routes false (routed "GET" "/health" ∅)
    = Router.Matched (Kit.ServeHTTP hcServer) ∅.
Proof.
  split; [reflexivity|]. split; [reflexivity|].
  split; [repeat split|]. split; [repeat split|].
  split.
  - intros r Hp. unfold MakeHttpHandler. cbn [Router.Match].
    unfold Router.pathVars. cbn [Router.path Router.Handle Router.Path].
    rewrite Hp.
    change (Router.matchPath "/op/{type}/{a}/{b}" "/metrics")
      with (@None (gmap string string)).
    change (Router.matchPath "/metrics" "/metrics")
      with (Some (∅ : gmap string string)).
    reflexivity.
  - repeat split; vm_compute; reflexivity.
Qed.

End Handler.

Lemma missing_variable_is_bad_request_witness :
  let r := routed "POST" "/op/Concat/x"
             (<["type" := "Concat"]> (<["a" := "x"]> ∅)) in
  let out := Kit.ServeHTTP
               (stringServer marshalSample sampleDefaultEncoder
                  sampleLogger sampleEndpoints sampleLogger)
               fresh r sampleEnv in
  decodeStringRequest Background r = (INil, Some ErrorBadRequest)
  ∧ fst out = encodeError Background ErrorBadRequest fresh
  ∧ Kit.est (snd out) = 0%nat.
Proof.
  intros r out.
  destruct (missing_variable_is_bad_request marshalSample
              sampleDefaultEncoder sampleLogger sampleEndpoints
              sampleLogger Background r)
    as (Hd & _ & Hserve).
  { right. right. reflexivity. }
  destruct (Hserve fresh sampleEnv) as [Hout Hest].
  split; [exact Hd|]. split; [|exact Hest].
  unfold out. now rewrite Hout.
Defined.



(** ** Worked requests *)

(** An endpoint error division by zero comes back as the envelope around
    that text, with status 500. *)
Example division_by_zero :
  let w := encodeError Background (errors_New 9%N "division by zero")
             fresh in
  body w = Json.envelopeText "division by zero" ∧ status w = 500.
Proof. split; reflexivity. Qed.

(** A text with a quote, a newline and an angle bracket is escaped inside
    the envelope. *)
Example escaped_message :
  errorBody
    (errors_New 9%N
       ("a" ++ Json.str Json.dquote ++ "b" ++ Json.str Json.newline ++ "<"))
  = Json.envelopeText
      ("a" ++ Json.str Json.backslash ++ Json.str Json.dquote ++ "b"
           ++ Json.str Json.backslash ++ "n"
           ++ Json.str Json.backslash ++ "u003c").
Proof. reflexivity. Qed.

(** POST /op/Concat/x/y on the sample operation endpoint: one call of the
    endpoint, status 200, the marshalled result and a newline. *)
Example concat_round_trip :
  let s := stringServer marshalSample sampleDefaultEncoder sampleLogger
             sampleEndpoints sampleLogger in
  let r := routed "POST" "/op/Concat/x/y"
             (<["type" := "Concat"]> (<["a" := "x"]> (<["b" := "y"]> ∅))) in
  let out := Kit.ServeHTTP s fresh r sampleEnv in
  status (fst out) = 200
  ∧ body (fst out)
    = "{" ++ Json.quote "result" ++ ":" ++ Json.quote "xy" ++ "}"
        ++ Json.str Json.newline
  ∧ Kit.est (snd out) = 1%nat
  ∧ Kit.lst (snd out) = [].
Proof. repeat split; reflexivity. Qed.

(** An operation type the sample endpoint refuses: the endpoint is called,
    its error is logged and sent as the envelope with status 500. *)
Example refused_operation :
  let s := stringServer marshalSample sampleDefaultEncoder sampleLogger
             sampleEndpoints sampleLogger in
  let r := routed "POST" "/op/Pow/x/y"
             (<["type" := "Pow"]> (<["a" := "x"]> (<["b" := "y"]> ∅))) in
  let out := Kit.ServeHTTP s fresh r sampleEnv in
  status (fst out) = 500
  ∧ body (fst out) = Json.envelopeText "invalid request type"
  ∧ Kit.est (snd out) = 1%nat
  ∧ Kit.lst (snd out)
    = [[("err", errors_New 3%N "invalid request type")]].
Proof. repeat split; reflexivity. Qed.

(** * Further properties of the package *)

(** ** The encoders and the writer's headers *)

Section EncoderHeaders.

Context {Response : Type}.
Variable marshalResponse : Response → string + error.

(** X1: the two encoders replace the Content-Type entry of the header map
    by a single value of their own, whatever was there, and leave every
    other header as it was. *)
Theorem encoders_touch_only_content_type (ctx : Context) (err : error)
    (response : Response) (w : ResponseWriter) (k : string) :
  k ≠ "Content-Type" →
  header (encodeError ctx err w) !! k = header w !! k
  ∧ header (fst (encodeStringResponse marshalResponse ctx w response)) !! k
    = header w !! k
  ∧ header (encodeError ctx err w) !! "Content-Type"
    = Some ["application/json; charset=utf-8"]
  ∧ header (fst (encodeStringResponse marshalResponse ctx w response))
      !! "Content-Type"
    = Some ["application/json;charset=utf-8"].
Proof.
  intros Hk. rewrite encodeError_unfold, encodeStringResponse_unfold.
  rewrite Write_header, WriteHeader_header.
  assert (Hs : ∀ k', header (fst (Json.Encode (marshalResponse response)
                 (HeaderSet "Content-Type" "application/json;charset=utf-8"
                    w))) !! k'
               = header (HeaderSet "Content-Type"
                           "application/json;charset=utf-8" w) !! k').
  { intros k'. destruct (marshalResponse response); cbn [Json.Encode fst];
      [now rewrite Write_header | reflexivity]. }
  rewrite !Hs. repeat split.
  - now apply HeaderSet_lookup_ne.
  - now apply HeaderSet_lookup_ne.
  - apply HeaderSet_lookup.
  - apply HeaderSet_lookup.
Qed.

(** X2: on a writer whose response has already started neither encoder
    changes the status or the headers that were sent: the 500 the error
    encoder asks for is ignored and the content types come too late. Both
    still append their body to what was written. *)
Theorem encoders_cannot_restart_response (ctx : Context) (err : error)
    (response : Response) (w : ResponseWriter) :
  wroteHeader w = true →
  let we := encodeError ctx err w in
  let ws := fst (encodeStringResponse marshalResponse ctx w response) in
  status we = status w ∧ sentHeader we = sentHeader w
  ∧ body we = body w ++ errorBody err
  ∧ explicitStatus we = (explicitStatus w ++ [500])%list
  ∧ status ws = status w ∧ sentHeader ws = sentHeader w
  ∧ body ws = match marshalResponse response with
              | inl text => body w ++ successBody text
              | inr _ => body w
              end.
Proof.
  intros Hw we ws. unfold we, ws.
  rewrite encodeError_unfold, encodeStringResponse_unfold.
  set (w1 := HeaderSet "Content-Type" "application/json; charset=utf-8" w).
  set (v1 := HeaderSet "Content-Type" "application/json;charset=utf-8" w).
  assert (H1 : wroteHeader w1 = true) by exact Hw.
  assert (Hv : wroteHeader v1 = true) by exact Hw.
  destruct (WriteHeader_later w1 StatusInternalServerError H1)
    as (H2 & Hst2 & Hsh2).
  destruct (Write_later _ (errorBody err) H2) as (Hst3 & Hsh3).
  assert (Hc1 : calls w1 = (calls w ++ [CallHeaderSet "Content-Type"
                              "application/json; charset=utf-8"])%list)
    by apply HeaderSet_calls.
  assert (Hc2 : calls (WriteHeader StatusInternalServerError w1)
                = (calls w1 ++ [CallWriteHeader 500])%list)
    by apply WriteHeader_calls.
  assert (Hc3 : calls (Write (errorBody err)
                         (WriteHeader StatusInternalServerError w1))
                = (calls (WriteHeader StatusInternalServerError w1)
                     ++ [CallWrite (errorBody err)])%list)
    by apply Write_calls.
  split; [now rewrite Hst3, Hst2|].
  split; [now rewrite Hsh3, Hsh2|].
  split; [now rewrite Write_body, WriteHeader_body|].
  split.
  { rewrite (explicitStatus_snoc _ _ _ Hc3), (explicitStatus_snoc _ _ _ Hc2),
      (explicitStatus_snoc _ _ _ Hc1). simpl. now rewrite !app_nil_r. }
  destruct (marshalResponse response) as [text|e]; cbn [Json.Encode fst].
  - fold (successBody text).
    destruct (Write_later v1 (successBody text) Hv) as (Hst & Hsh).
    split; [exact Hst|]. split; [exact Hsh|]. now rewrite Write_body.
  - repeat split.
Qed.

End EncoderHeaders.

Lemma encoders_touch_only_content_type_witness :
  header startedWriter !! "Content-Type" = Some ["text/html"]
  ∧ header (encodeError Background ErrorBadRequest startedWriter)
      !! "X-Request-Id" = Some ["42"]
  ∧ header (encodeError Background ErrorBadRequest startedWriter)
      !! "Content-Type" = Some ["application/json; charset=utf-8"].
Proof.
  destruct (encoders_touch_only_content_type marshalSample Background
              ErrorBadRequest SampleChan startedWriter "X-Request-Id")
    as (H1 & _ & H2 & _).
  { discriminate. }
  split; [reflexivity|]. split; [|exact H2].
  rewrite H1. reflexivity.
Defined.

Lemma encoders_cannot_restart_response_witness :
  let we := encodeError Background ErrorBadRequest startedWriter in
  status we = 200
  ∧ sentHeader we !! "Content-Type" = Some ["text/html"]
  ∧ body we = "partial" ++ errorBody ErrorBadRequest.
Proof.
  destruct (encoders_cannot_restart_response marshalSample Background
              ErrorBadRequest SampleChan startedWriter eq_refl)
    as (Hs & Hh & Hb & _).
  cbv zeta. rewrite Hs, Hh, Hb. repeat split.
Defined.

(** ** Failure paths of the two servers *)

Section Failures.

Context {Response E L : Type}.
Variable marshalResponse : Response → string + error.
Variable DefaultErrorEncoder : Kit.ErrorEncoder.
Variable nopLogger : @Kit.Logger L.
Variable endpoints : StringEndpoints Response E.
Variable logger : @Kit.Logger L.

Local Abbreviation opServer :=
  (stringServer marshalResponse DefaultErrorEncoder nopLogger endpoints
     logger).
Local Abbreviation hcServer :=
  (healthServer marshalResponse DefaultErrorEncoder nopLogger endpoints
     logger).

(** A marshalling failure of the success encoder ends the call in the
    error path, on the writer the success encoder left. *)
Lemma ServeHTTP_encode_failure (s : @Kit.Server Response E L)
    (w : ResponseWriter) (r : Request) (env : Kit.Env)
    (req : request) (resp : Response) (est' : E) (err : error) :
  Kit.enc s = encodeStringResponse marshalResponse →
  Kit.dec s (ReqContext r) r = (req, None) →
  Kit.e s (ReqContext r) req (Kit.est env) = ((resp, None), est') →
  marshalResponse resp = inr err →
  Kit.ServeHTTP s w r env
  = (Kit.errorEncoder s (ReqContext r) err
       (HeaderSet "Content-Type" "application/json;charset=utf-8" w),
     {| Kit.est := est';
        Kit.lst := Kit.errorHandler s (ReqContext r) err (Kit.lst env) |}).
Proof.
  intros Henc Hd He Hm. unfold Kit.ServeHTTP.
  rewrite Hd, He, Henc, encodeStringResponse_unfold, Hm. reflexivity.
Qed.


Lemma package_servers (s : @Kit.Server Response E L) :
  s = opServer ∨ s = hcServer →
  Kit.enc s = encodeStringResponse marshalResponse
  ∧ Kit.errorEncoder s = encodeError
  ∧ Kit.errorHandler s = Kit.NewLogErrorHandler logger.
Proof. intros [-> | ->]; repeat split. Qed.

(** X3: when the endpoint answers without error but its response does not
    marshal, the endpoint has run (its new state is kept), the marshalling
    error is logged, and the client gets the error envelope with status
    500 under the error encoder's content type, which has replaced the one
    the success encoder had already put in the header map. *)
Theorem unmarshalable_response_is_sent_as_error
    (s : @Kit.Server Response E L) (w : ResponseWriter) (r : Request)
    (env : Kit.Env) (req : request) (resp : Response) (est' : E)
    (err : error) :
  s = opServer ∨ s = hcServer →
  wroteHeader w = false →
  Kit.dec s (ReqContext r) r = (req, None) →
  Kit.e s (ReqContext r) req (Kit.est env) = ((resp, None), est') →
  marshalResponse resp = inr err →
  let out := Kit.ServeHTTP s w r env in
  snd out = {| Kit.est := est';
               Kit.lst := logger [("err", err)] (Kit.lst env) |}
  ∧ status (fst out) = StatusInternalServerError
  ∧ sentHeader (fst out) !! "Content-Type"
    = Some ["application/json; charset=utf-8"]
  ∧ header (fst out) !! "Content-Type"
    = Some ["application/json; charset=utf-8"]
  ∧ writes (fst out) = (writes w ++ [errorBody err])%list
  ∧ body (fst out) = body w ++ errorBody err.
Proof.
  intros Hs Hfresh Hd He Hm out.
  destruct (package_servers s Hs) as (Henc & Hee & Hh).
  unfold out.
  rewrite (ServeHTTP_encode_failure s w r env req resp est' err Henc Hd He
             Hm), Hee, Hh.
  cbn [fst snd].
  destruct (encodeError_after_failed_encode marshalResponse (ReqContext r)
              w resp err Hm Hfresh) as (w1 & Hw1 & Hw & Hb & Hst & Hsh).
  rewrite encodeStringResponse_unfold, Hm in Hw1. cbn [Json.Encode] in Hw1.
  injection Hw1 as <-.
  repeat split; try assumption.
  rewrite encodeError_unfold, Write_header, WriteHeader_header.
  apply HeaderSet_lookup.
Qed.

(** X4: the health server never fails to decode: whatever the request, it
    calls the health endpoint once with the empty marker, and two requests
    with the same context are answered alike, whatever their method, path,
    query, headers, body and route variables. *)
Theorem health_route_ignores_request (w : ResponseWriter) (r r' : Request)
    (env : Kit.Env) :
  ReqContext r = ReqContext r' →
  Kit.ServeHTTP hcServer w r env = Kit.ServeHTTP hcServer w r' env
  ∧ Kit.est (snd (Kit.ServeHTTP hcServer w r env))
    = snd (HealthCheckEndpoint endpoints (ReqContext r)
             (IHealthRequest mkHealthRequest) (Kit.est env)).
Proof.
  intros Hctx. split.
  - unfold Kit.ServeHTTP. rewrite Hctx. reflexivity.
  - unfold Kit.ServeHTTP.
    change (Kit.dec hcServer (ReqContext r) r)
      with (IHealthRequest mkHealthRequest, @None error).
    cbv iota beta.
    change (Kit.e hcServer) with (HealthCheckEndpoint endpoints).
    destruct (HealthCheckEndpoint endpoints (ReqContext r)
                (IHealthRequest mkHealthRequest) (Kit.est env))
      as [[resp [err|]] est']; [reflexivity|].
    cbn [snd].
    destruct (Kit.enc hcServer (ReqContext r) w resp) as [w1 [err|]];
      reflexivity.
Qed.


(** X6: the status and the content type sent go together: 200 with
    application/json;charset=utf-8, 500 with
    application/json; charset=utf-8, and nothing else. *)
Theorem content_type_tells_the_outcome (s : @Kit.Server Response E L)
    (w : ResponseWriter) (r : Request) (env : Kit.Env) :
  s = opServer ∨ s = hcServer →
  wroteHeader w = false →
  let w' := fst (Kit.ServeHTTP s w r env) in
  (status w' = 200 ∨ status w' = 500)
  ∧ (status w' = 200
     ↔ sentHeader w' !! "Content-Type"
       = Some ["application/json;charset=utf-8"])
  ∧ (status w' = 500
     ↔ sentHeader w' !! "Content-Type"
       = Some ["application/json; charset=utf-8"]).
Proof.
  intros Hs Hfresh w'.
  destruct (package_servers s Hs) as (Henc & Hee & _).
  assert (Hcase :
            (status w' = StatusOK
             ∧ sentHeader w' !! "Content-Type"
               = Some ["application/json;charset=utf-8"])
            ∨ (status w' = StatusInternalServerError
               ∧ sentHeader w' !! "Content-Type"
                 = Some ["application/json; charset=utf-8"])).
  { destruct (WriteError w) as [werr|] eqn:Hconn.
    - destruct (ServeHTTP_failing_write marshalResponse s w r env werr Henc
                  Hee Hfresh Hconn)
        as [(err & _ & _ & Hst & Hh & _)
           | (_ & _ & _ & _ & _ & _ & _ & _ & _ & Hst & _ & Hh & _)];
        fold w' in Hst, Hh; auto.
    - destruct (ServeHTTP_one_chunk marshalResponse s w r env Henc Hee
                  Hfresh Hconn) as (chunk & _ & _ & Hcase).
      fold w' in Hcase.
      destruct Hcase as [(_ & _ & _ & _ & _ & _ & _ & _ & Hst & _ & Hh)
                        | (_ & _ & Hst & Hh)]; auto. }
  destruct Hcase as [[Hst Hh] | [Hst Hh]];
    rewrite Hst, Hh; unfold StatusOK, StatusInternalServerError.
  - split; [left; reflexivity|]. split; split; intros H;
      first [reflexivity | discriminate H].
  - split; [right; reflexivity|]. split; split; intros H;
      first [reflexivity | discriminate H].
Qed.

End Failures.

Lemma unmarshalable_response_is_sent_as_error_witness :
  let s := stringServer marshalSample sampleDefaultEncoder sampleLogger
             sampleUnmarshalable sampleLogger in
  let r := routed "POST" "/op/Concat/x/y"
             (<["type" := "Concat"]> (<["a" := "x"]> (<["b" := "y"]> ∅))) in
  let out := Kit.ServeHTTP s fresh r sampleEnv in
  Kit.est (snd out) = 1%nat
  ∧ status (fst out) = 500
  ∧ body (fst out)
    = Json.envelopeText "json: unsupported type: chan int".
Proof.
  intros s r out.
  destruct (unmarshalable_response_is_sent_as_error marshalSample
              sampleDefaultEncoder sampleLogger sampleUnmarshalable
              sampleLogger s fresh r sampleEnv
              (IStringRequest
                 {| RequestType := "Concat"; A := "x"; B := "y" |})
              SampleChan 1%nat
              (errors_New 2%N "json: unsupported type: chan int")
              (or_introl eq_refl) eq_refl eq_refl eq_refl eq_refl)
    as (He & Hst & _ & _ & _ & Hb).
  fold out in He, Hst, Hb. rewrite He, Hst, Hb. repeat split.
Defined.

Lemma health_route_ignores_request_witness :
  let s := healthServer marshalSample sampleDefaultEncoder sampleLogger
             sampleEndpoints sampleLogger in
  Kit.ServeHTTP s fresh (routed "GET" "/health" ∅) sampleEnv
  = Kit.ServeHTTP s fresh
      (routed "DELETE" "/elsewhere" (<["type" := "x"]> ∅)) sampleEnv.
Proof.
  exact (proj1 (health_route_ignores_request marshalSample
                  sampleDefaultEncoder sampleLogger sampleEndpoints
                  sampleLogger fresh (routed "GET" "/health" ∅)
                  (routed "DELETE" "/elsewhere" (<["type" := "x"]> ∅))
                  sampleEnv eq_refl)).
Defined.


Lemma content_type_tells_the_outcome_witness :
  let s := healthServer marshalSample sampleDefaultEncoder sampleLogger
             sampleEndpoints sampleLogger in
  let w' := fst (Kit.ServeHTTP s fresh (routed "GET" "/health" ∅)
                   sampleEnv) in
  status w' = 200
  ↔ sentHeader w' !! "Content-Type"
    = Some ["application/json;charset=utf-8"].
Proof.
  intros s w'.
  exact (proj1 (proj2 (content_type_tells_the_outcome marshalSample
                         sampleDefaultEncoder sampleLogger sampleEndpoints
                         sampleLogger s fresh (routed "GET" "/health" ∅)
                         sampleEnv (or_intror eq_refl) eq_refl))).
Defined.

(** ** Which requests reach which handler *)

Lemma segments_nonempty (p : string) : Router.segments p ≠ [].
Proof.
  destruct p as [|c p]; [discriminate|]. simpl.
  destruct (Ascii.eqb c "/"); [discriminate|].
  destruct (Router.segments p); discriminate.
Qed.

Lemma joinSegments_cons (c : ascii) (seg : string) (segs : list string) :
  joinSegments (String c seg :: segs) = String c (joinSegments (seg :: segs)).
Proof. destruct segs; reflexivity. Qed.

(** Putting the segments of a path back together gives the path. *)
Lemma join_segments (p : string) : joinSegments (Router.segments p) = p.
Proof.
  induction p as [|c p IH]; [reflexivity|].
  cbn [Router.segments]. destruct (Ascii.eqb_spec c "/") as [->|_].
  - destruct (Router.segments p) as [|seg segs] eqn:Hs.
    + now destruct (segments_nonempty p).
    + change (joinSegments ("" :: seg :: segs))
        with (String "/" (joinSegments (seg :: segs))).
      now rewrite IH.
  - destruct (Router.segments p) as [|seg segs] eqn:Hs.
    + now destruct (segments_nonempty p).
    + rewrite joinSegments_cons. now rewrite IH.
Qed.

(** A piece without a slash, then a slash: the piece is the first
    segment. *)
Lemma segments_piece (t rest : string) :
  slashFree t = true →
  Router.segments (t ++ String "/" rest) = t :: Router.segments rest.
Proof.
  induction t as [|c t IH]; intros Hfree; [reflexivity|].
  cbn [slashFree] in Hfree. apply andb_prop in Hfree as [Hc Ht].
  change (String c t ++ String "/" rest)
    with (String c (t ++ String "/" rest)).
  cbn [Router.segments]. apply negb_true_iff in Hc. rewrite Hc.
  now rewrite (IH Ht).
Qed.

Lemma segments_last (t : string) :
  slashFree t = true → Router.segments t = [t].
Proof.
  induction t as [|c t IH]; intros Hfree; [reflexivity|].
  cbn [slashFree] in Hfree. apply andb_prop in Hfree as [Hc Ht].
  cbn [Router.segments]. apply negb_true_iff in Hc. rewrite Hc.
  now rewrite (IH Ht).
Qed.

(** The two templates without variables match their own text only. *)
Lemma matchPath_metrics (p : string) (vars : gmap string string) :
  Router.matchPath "/metrics" p = Some vars → p = "/metrics" ∧ vars = ∅.
Proof.
  unfold Router.matchPath.
  change (Router.segments "/metrics") with [""; "metrics"].
  destruct (Router.segments p) as [|s0 [|s1 [|s2 l]]] eqn:Hseg;
    cbn [Router.matchSegments]; try discriminate;
    template_segments; compare_segments; try discriminate.
  intros [= <-]. split; [|reflexivity].
  rewrite <- (join_segments p), Hseg. reflexivity.
Qed.

Lemma matchPath_health (p : string) (vars : gmap string string) :
  Router.matchPath "/health" p = Some vars → p = "/health" ∧ vars = ∅.
Proof.
  unfold Router.matchPath.
  change (Router.segments "/health") with [""; "health"].
  destruct (Router.segments p) as [|s0 [|s1 [|s2 l]]] eqn:Hseg;
    cbn [Router.matchSegments]; try discriminate;
    template_segments; compare_segments; try discriminate.
  intros [= <-]. split; [|reflexivity].
  rewrite <- (join_segments p), Hseg. reflexivity.
Qed.

(** A path with the operation template's shape matches no other
    template. *)
Lemma matchPath_op_only (p : string) (vars : gmap string string) :
  Router.matchPath "/op/{type}/{a}/{b}" p = Some vars →
  Router.matchPath "/metrics" p = None ∧ Router.matchPath "/health" p = None.
Proof.
  intros H. destruct (matchPath_op p vars H) as (t & a & b & Hs & _).
  unfold Router.matchPath. rewrite Hs. split; reflexivity.
Qed.

(** The paths the operation template matches, spelled out. *)
Lemma matchPath_op_shape (p : string) (vars : gmap string string) :
  Router.matchPath "/op/{type}/{a}/{b}" p = Some vars ↔
  ∃ t a b,
    p = "/op/" ++ t ++ "/" ++ a ++ "/" ++ b
    ∧ t ≠ "" ∧ a ≠ "" ∧ b ≠ ""
    ∧ slashFree t = true ∧ slashFree a = true ∧ slashFree b = true
    ∧ vars = <["b" := b]> (<["a" := a]> (<["type" := t]> ∅)).
Proof.
  split.
  - intros H.
    destruct (matchPath_op p vars H) as (t & a & b & Hs & Ht & Ha & Hb & Hv).
    exists t, a, b.
    assert (Hp : p = "/op/" ++ t ++ "/" ++ a ++ "/" ++ b).
    { rewrite <- (join_segments p), Hs. reflexivity. }
    split; [exact Hp|]. repeat (split; [assumption|]).
    assert (Hfree : ∀ x rest l,
              Router.segments (x ++ String "/" rest) = x :: l ∨
              Router.segments x = [x] → slashFree x = true).
    { clear. intros x. induction x as [|c x IH]; intros rest l H;
        [reflexivity|].
      cbn [slashFree].
      change (String c x ++ String "/" rest)
        with (String c (x ++ String "/" rest)) in H.
      cbn [Router.segments] in H.
      revert H. destruct (Ascii.eqb c "/"); intros H;
        [destruct H as [H|H]; discriminate H|].
      cbn [negb andb].
      destruct H as [H|H].
      - destruct (Router.segments (x ++ String "/" rest)) as [|y ys] eqn:Hy;
          [now destruct (segments_nonempty _ Hy)|].
        injection H as -> ->. apply (IH rest l). left. exact Hy.
      - destruct (Router.segments x) as [|y ys] eqn:Hy;
          [now destruct (segments_nonempty _ Hy)|].
        injection H as -> ->. apply (IH rest l). right. reflexivity. }
    rewrite Hp in Hs.
    change ("/op/" ++ t ++ "/" ++ a ++ "/" ++ b)
      with (String "/" (String "o" (String "p" (String "/"
              (t ++ String "/" (a ++ String "/" b)))))) in Hs.
    cbn [Router.segments Ascii.eqb Bool.eqb] in Hs.
    destruct (Router.segments (t ++ String "/" (a ++ String "/" b)))
      as [|y ys] eqn:Hy; [discriminate Hs|].
    injection Hs as -> ->.
    assert (Ht' : slashFree t = true) by (eapply Hfree; left; exact Hy).
    rewrite (segments_piece t _ Ht') in Hy. injection Hy as Hy.
    destruct (Router.segments (a ++ String "/" b)) as [|z zs] eqn:Hz;
      [discriminate Hy|].
    injection Hy as -> ->.
    assert (Ha' : slashFree a = true) by (eapply Hfree; left; exact Hz).
    rewrite (segments_piece a _ Ha') in Hz. injection Hz as Hz.
    assert (Hb' : slashFree b = true)
      by (apply (Hfree b "" []); right; exact Hz).
    auto.
  - intros (t & a & b & -> & Ht & Ha & Hb & Hft & Hfa & Hfb & ->).
    unfold Router.matchPath.
    change (Router.segments "/op/{type}/{a}/{b}")
      with [""; "op"; "{type}"; "{a}"; "{b}"].
    change ("/op/" ++ t ++ "/" ++ a ++ "/" ++ b)
      with (String "/" (String "o" (String "p" (String "/"
              (t ++ String "/" (a ++ String "/" b)))))).
    cbn [Router.segments Ascii.eqb Bool.eqb].
    rewrite (segments_piece t _ Hft), (segments_piece a _ Hfa),
      (segments_last b Hfb).
    cbn [Router.matchSegments]. template_segments.
    change (String.eqb "" "") with true.
    change (String.eqb "op" "op") with true. cbv iota.
    destruct (String.eqb_spec t "") as [|_]; [contradiction|].
    destruct (String.eqb_spec a "") as [|_]; [contradiction|].
    destruct (String.eqb_spec b "") as [|_]; [contradiction|].
    reflexivity.
Qed.


Section Dispatch.

Context {Response E L : Type}.
Variable marshalResponse : Response → string + error.
Variable DefaultErrorEncoder : Kit.ErrorEncoder.
Variable nopLogger : @Kit.Logger L.
Variable promhttpHandler : @Kit.Handler E L.
Variable endpoints : StringEndpoints Response E.
Variable logger : @Kit.Logger L.

Local Abbreviation opServer :=
  (stringServer marshalResponse DefaultErrorEncoder nopLogger endpoints
     logger).
Local Abbreviation hcServer :=
  (healthServer marshalResponse DefaultErrorEncoder nopLogger endpoints
     logger).
Local Abbreviation routes :=
  (MakeHttpHandler marshalResponse DefaultErrorEncoder nopLogger
     promhttpHandler Background endpoints logger).

(** Route selection on the three routes, as a cascade of tests. *)
Lemma Match_routes (r : Request) :
  Router.Match routes false r
  = match Router.matchPath "/op/{type}/{a}/{b}" (URLPath r) with
    | Some vars =>
      if String.eqb (Method r) "POST"
      then Router.Matched (Kit.ServeHTTP opServer) vars
      else
        match Router.matchPath "/metrics" (URLPath r) with
        | Some v => Router.Matched promhttpHandler v
        | None =>
          match Router.matchPath "/health" (URLPath r) with
          | Some v =>
            if String.eqb (Method r) "GET"
            then Router.Matched (Kit.ServeHTTP hcServer) v
            else Router.MethodMismatch
          | None => Router.MethodMismatch
          end
        end
    | None =>
      match Router.matchPath "/metrics" (URLPath r) with
      | Some v => Router.Matched promhttpHandler v
      | None =>
        match Router.matchPath "/health" (URLPath r) with
        | Some v =>
          if String.eqb (Method r) "GET"
          then Router.Matched (Kit.ServeHTTP hcServer) v
          else Router.MethodMismatch
        | None => Router.NotFound
        end
      end
    end.
Proof.
  unfold MakeHttpHandler.
  cbn [Router.Match Router.pathVars Router.path Router.Handle Router.Path
       Router.Methods Router.NewRoute Router.methodOk Router.methods
       Router.handler app existsb].
  rewrite !orb_false_r.
  destruct (Router.matchPath "/op/{type}/{a}/{b}" (URLPath r));
    destruct (String.eqb (Method r) "POST");
    destruct (Router.matchPath "/metrics" (URLPath r));
    destruct (Router.matchPath "/health" (URLPath r));
    destruct (String.eqb (Method r) "GET"); reflexivity.
Qed.

(** X7: a request reaches a handler in three ways and no other: by POST on
    a path /op/t/a/b with three non-empty pieces, the operation server; by
    any method on /metrics, the metrics handler; by GET on /health, the
    health server. The route variables are the three pieces, or none. *)
Theorem handlers_reached (r : Request) (h : @Kit.Handler E L)
    (vars : gmap string string) :
  Router.Match routes false r = Router.Matched h vars ↔
  (Method r = "POST"
   ∧ (∃ t a b,
        URLPath r = "/op/" ++ t ++ "/" ++ a ++ "/" ++ b
        ∧ t ≠ "" ∧ a ≠ "" ∧ b ≠ ""
        ∧ slashFree t = true ∧ slashFree a = true ∧ slashFree b = true
        ∧ vars = <["b" := b]> (<["a" := a]> (<["type" := t]> ∅)))
   ∧ h = Kit.ServeHTTP opServer)
  ∨ (URLPath r = "/metrics" ∧ vars = ∅ ∧ h = promhttpHandler)
  ∨ (Method r = "GET" ∧ URLPath r = "/health" ∧ vars = ∅
     ∧ h = Kit.ServeHTTP hcServer).
Proof.
  rewrite Match_routes, <- matchPath_op_shape. split.
  - destruct (Router.matchPath "/op/{type}/{a}/{b}" (URLPath r))
      as [v|] eqn:Hop.
    + destruct (String.eqb_spec (Method r) "POST") as [Hm|Hm].
      * intros [= <- <-]. left. auto.
      * destruct (matchPath_op_only _ _ Hop) as [-> ->]. discriminate.
    + destruct (Router.matchPath "/metrics" (URLPath r)) as [v|] eqn:Hme.
      * destruct (matchPath_metrics _ _ Hme) as [Hp ->].
        intros [= <-]. right. left. auto.
      * destruct (Router.matchPath "/health" (URLPath r)) as [v|] eqn:Hhe;
          [|discriminate].
        destruct (matchPath_health _ _ Hhe) as [Hp ->].
        destruct (String.eqb_spec (Method r) "GET") as [Hm|Hm];
          [|discriminate].
        intros [= <-]. right. right. auto.
  - intros [(Hm & Hop & ->) | [(Hp & -> & ->) | (Hm & Hp & -> & ->)]].
    + rewrite Hop, Hm. reflexivity.
    + rewrite Hp. reflexivity.
    + rewrite Hp, Hm. reflexivity.
Qed.


End Dispatch.


(** ** The bytes of the error body *)

Lemma allBytes_app (P : N → bool) (a b : string) :
  allBytes P (a ++ b) = allBytes P a && allBytes P b.
Proof.
  induction a as [|c a IH]; [reflexivity|].
  change (String c a ++ b) with (String c (a ++ b)).
  cbn [allBytes]. now rewrite IH, andb_assoc.
Qed.

Lemma wireSafe_high (b : N) : (128 <=? b)%N = true → wireSafe b = true.
Proof.
  intros H. apply N.leb_le in H. unfold wireSafe.
  apply andb_true_intro. split.
  - apply N.leb_le. lia.
  - apply negb_true_iff.
    repeat (apply orb_false_intro); apply N.eqb_neq; lia.
Qed.

Lemma hex_safe (n : N) : wireSafe (N_of_ascii (Json.hex n)) = true.
Proof.
  unfold Json.hex. generalize (N.to_nat n). intros k.
  do 16 (destruct k as [|k]; [reflexivity|]). now destruct k.
Qed.

(** What the string writer emits for an ASCII byte. *)
Lemma ascii_output_safe (c : ascii) :
  (N_of_ascii c <? 128)%N = true →
  allBytes wireSafe
    (if Json.htmlSafe (N_of_ascii c) then Json.str c
     else Json.escapeByte (N_of_ascii c)) = true.
Proof.
  destruct c as [[] [] [] [] [] [] [] []]; intros H;
    first [discriminate H | vm_compute; reflexivity].
Qed.

Lemma first_lo (b : N) (sz : nat) (lo hi : N) :
  Json.first b = Some (sz, (lo, hi)) → (128 <= lo)%N.
Proof.
  unfold Json.first.
  repeat match goal with
         | |- context [if ?t then _ else _] => destruct t
         end;
    intros [= <- <- <-] || discriminate; lia.
Qed.

(** After the lead byte of a decoded rune come its continuation bytes,
    all outside ASCII. *)
Lemma decode_high (c : ascii) (rest : string) (r : N) (size : nat) :
  (N_of_ascii c <? 128)%N = false →
  Json.DecodeRuneInString (String c rest) = (r, size) →
  highPrefix (size - 1) rest = true.
Proof.
  intros Hc. cbn [Json.DecodeRuneInString]. cbv zeta. rewrite Hc.
  destruct (Json.first (N_of_ascii c)) as [[sz [lo hi]]|] eqn:Hf;
    [|intros [= <- <-]; reflexivity].
  pose proof (first_lo _ _ _ _ Hf) as Hlo.
  destruct rest as [|c1 t1]; [intros [= <- <-]; reflexivity|].
  destruct ((N_of_ascii c1 <? lo)%N || (hi <? N_of_ascii c1)%N) eqn:H1;
    [intros [= <- <-]; reflexivity|].
  assert (Hs1 : (128 <=? N_of_ascii c1)%N = true).
  { apply orb_false_elim in H1 as [H1 _]. apply N.ltb_ge in H1.
    apply N.leb_le. lia. }
  destruct (sz <=? 2)%nat.
  { intros [= <- <-]. cbn [Nat.sub highPrefix]. now rewrite Hs1. }
  destruct t1 as [|c2 t2]; [intros [= <- <-]; reflexivity|].
  destruct (Json.cont (N_of_ascii c2)) eqn:H2; cbn [negb];
    [|intros [= <- <-]; reflexivity].
  assert (Hs2 : (128 <=? N_of_ascii c2)%N = true)
    by (unfold Json.cont in H2; now apply andb_prop in H2 as [H2 _]).
  destruct (sz <=? 3)%nat.
  { intros [= <- <-]. cbn [Nat.sub highPrefix]. now rewrite Hs1, Hs2. }
  destruct t2 as [|c3 t3]; [intros [= <- <-]; reflexivity|].
  destruct (Json.cont (N_of_ascii c3)) eqn:H3; cbn [negb];
    [|intros [= <- <-]; reflexivity].
  assert (Hs3 : (128 <=? N_of_ascii c3)%N = true)
    by (unfold Json.cont in H3; now apply andb_prop in H3 as [H3 _]).
  intros [= <- <-]. cbn [Nat.sub highPrefix]. now rewrite Hs1, Hs2, Hs3.
Qed.

(** The string writer emits no control character and none of <, > and &:
    what it copies is safe ASCII or lies outside ASCII, the rest it
    escapes. *)
Lemma quoteFrom_safe (s : string) :
  ∀ (pending : nat) (raw : bool),
    (raw = true → highPrefix pending s = true) →
    allBytes wireSafe (Json.quoteFrom pending raw s) = true.
Proof.
  induction s as [|c rest IH]; intros pending raw Hinv; [reflexivity|].
  cbn [Json.quoteFrom]. destruct pending as [|k].
  - cbv zeta. destruct (N_of_ascii c <? 128)%N eqn:Hc.
    + rewrite allBytes_app, (ascii_output_safe c Hc). apply IH. reflexivity.
    + destruct (Json.DecodeRuneInString (String c rest)) as [r size] eqn:Hd.
      pose proof (decode_high c rest r size Hc Hd) as Hhigh.
      destruct ((r =? Json.RuneError)%N && (size =? 1)%nat).
      { rewrite allBytes_app. apply andb_true_intro. split; [reflexivity|].
        apply IH. reflexivity. }
      destruct ((r =? 8232) || (r =? 8233))%N.
      { rewrite !allBytes_app. apply andb_true_intro.
        split; [reflexivity|]. apply andb_true_intro. split.
        - cbn [Json.str allBytes]. now rewrite hex_safe.
        - apply IH. discriminate. }
      cbn [allBytes]. apply andb_true_intro. split.
      * apply wireSafe_high. apply N.leb_le. apply N.ltb_ge in Hc. exact Hc.
      * apply IH. intros _. exact Hhigh.
  - destruct raw.
    + specialize (Hinv eq_refl). cbn [highPrefix] in Hinv.
      apply andb_prop in Hinv as [Hc Hrest].
      cbn [allBytes]. rewrite (wireSafe_high _ Hc). apply IH.
      intros _. exact Hrest.
    + unfold id. apply IH. discriminate.
Qed.

(** X9: whatever the error's text, the body the error encoder writes is
    one line closed by the encoder's newline, and the line holds no
    control character (no line break in particular) and none of the
    characters <, > and &: the text's own are all escaped. *)
Theorem error_body_is_one_safe_line (ctx : Context) (err : error)
    (w : ResponseWriter) :
  ∃ line : string,
    body (encodeError ctx err w) = body w ++ line ++ Json.str Json.newline
    ∧ allBytes wireSafe line = true.
Proof.
  exists ("{" ++ Json.quote "error" ++ ":" ++ Json.quote (Error err) ++ "}").
  split.
  - rewrite encodeError_unfold, Write_body, WriteHeader_body. unfold errorBody.
    cbn [Json.marshalValue Json.joinComma fold_left].
    change (body (HeaderSet "Content-Type"
                    "application/json; charset=utf-8" w)) with (body w).
    now rewrite !append_assoc.
  - unfold Json.quote.
    change (String Json.dquote (Json.quoteFrom 0 true (Error err))
              ++ Json.str Json.dquote)
      with (Json.str Json.dquote
              ++ Json.quoteFrom 0 true (Error err) ++ Json.str Json.dquote).
    rewrite !allBytes_app, (quoteFrom_safe (Error err) 0 true (λ _, eq_refl)).
    reflexivity.
Qed.
